(** * The expected-loss quoting engine of the PyME guarantee calculator

    A shallow embedding of [quoter.py], [features.py] and of the quote lookup
    of [app.py].

    Conventions of the embedding.
    - Python numbers (int and float) are exact rationals [Q]; rounding,
      overflow and IEEE special values other than the missing marker [NaN]
      are not modelled.  Numeric equalities are therefore stated with [==].
    - A Python exception is a value of [exn]; code that may raise returns a
      [result].  Division and power raise [ZeroDivisionError] where Python's
      float operations on the exact values would; a divisor that is zero
      only after rounding, and an overflow, are not seen.  NumPy scalars are
      not told apart from Python floats: where NumPy arithmetic would answer
      a division by zero with [inf] or [nan] and a warning, the embedding
      raises as well.  Statements are therefore made about returned quotes,
      or under hypotheses that keep away from these cases.
    - A [dict] and a one-row [DataFrame] are association lists: key order is
      the insertion (column) order, which the preprocessing depends on.
    - The pickled artifacts live in a file system [FS]; [load_models] and
      [calculate_quote] thread it explicitly.
    - scikit-learn, numpy and the training script are not part of the
      sources.  [np.log1p] and [train.main] are section variables; the
      fitted [ColumnTransformer], [PowerTransformer] and [OrdinalEncoder] are
      records whose [transform] follows the library's documented behaviour
      for the configuration that [create_preprocessor] writes down. *)

From Stdlib Require Import QArith Qpower Lqa ZArith Lia String Ascii List Bool.
Import ListNotations.
Open Scope string_scope.
Open Scope Q_scope.

(** ** Python values, exceptions and dictionaries *)

Module Py.

Inductive exn : Type :=
| ZeroDivisionError
| ValueError (msg : string)
| KeyError (key : string)
| FileNotFoundError (path : string)
| TypeError.

Inductive result (A : Type) : Type :=
| Ok (a : A)
| Raise (e : exn).

Arguments Ok {A} a.
Arguments Raise {A} e.

Definition bind {A B : Type} (r : result A) (k : A -> result B) : result B :=
  match r with
  | Ok a => k a
  | Raise e => Raise e
  end.

(** A cell of a record or frame: a number, a string, or the missing number
    [np.nan]. *)
Inductive value : Type :=
| Num (q : Q)
| Str (s : string)
| NaN.

Definition is_nan (v : value) : bool :=
  match v with
  | NaN => true
  | _ => false
  end.

Definition is_str (v : value) : bool :=
  match v with
  | Str _ => true
  | _ => false
  end.

Definition value_eqb (a b : value) : bool :=
  match a, b with
  | Num x, Num y => Qeq_bool x y
  | Str x, Str y => String.eqb x y
  | NaN, NaN => true
  | _, _ => false
  end.

Definition dict : Type := list (string * value).

Fixpoint dict_get (d : dict) (k : string) : option value :=
  match d with
  | [] => None
  | (k', v) :: rest => if String.eqb k' k then Some v else dict_get rest k
  end.

(** [d[k]]: raises [KeyError] on an absent key. *)
Definition dict_getitem (d : dict) (k : string) : result value :=
  match dict_get d k with
  | Some v => Ok v
  | None => Raise (KeyError k)
  end.

(** [d[k] = v]: overwrites in place, or appends a new last key. *)
Fixpoint dict_set (d : dict) (k : string) (v : value) : dict :=
  match d with
  | [] => [(k, v)]
  | (k', v') :: rest =>
      if String.eqb k' k then (k', v) :: rest else (k', v') :: dict_set rest k v
  end.

Definition keys (d : dict) : list string := map fst d.

Definition Qltb (x y : Q) : bool := negb (Qle_bool y x).

(** [a / b] on floats. *)
Definition pydiv (a b : Q) : result Q :=
  if Qeq_bool b 0 then Raise ZeroDivisionError else Ok (a / b).

(** [base ** n] for an integer exponent: zero to a negative power raises. *)
Definition pypow (base : Q) (n : Z) : result Q :=
  if Qeq_bool base 0 && (n <? 0)%Z then Raise ZeroDivisionError
  else Ok (base ^ n).

(** [max(a, b)] and [min(a, b)]: the first argument is kept unless the
    second is strictly better. *)
Definition pymax (a b : Q) : Q := if Qltb a b then b else a.
Definition pymin (a b : Q) : Q := if Qltb b a then b else a.

Definition upper_ascii (c : ascii) : ascii :=
  let n := nat_of_ascii c in
  if (97 <=? n)%nat && (n <=? 122)%nat then ascii_of_nat (n - 32) else c.

(** [s.upper()] on ASCII letters. *)
Fixpoint upper (s : string) : string :=
  match s with
  | EmptyString => EmptyString
  | String c rest => String (upper_ascii c) (upper rest)
  end.

(** [s[:n]]. *)
Definition prefix (n : nat) (s : string) : string := substring 0 n s.

(** A string of ASCII characters only: on such a string [upper] and [prefix]
    are Python's [upper()] and slice, character for character. *)
Definition is_ascii (s : string) : bool :=
  forallb (fun c => (nat_of_ascii c <? 128)%nat) (list_ascii_of_string s).

End Py.

Import Py.

Notation "x <- e ;; k" := (bind e (fun x => k))
  (at level 61, e at next level, right associativity).

(** ** scikit-learn's transformers, as far as [features.py] configures them *)

Module Sklearn.

Inductive HandleUnknown : Type :=
| ErrorOnUnknown
| UseEncodedValue.

(** [categories_] is the fitted attribute: per categorical column, the
    categories seen at fit time, in code order. *)
Record OrdinalEncoder : Type := mkOrdinalEncoder {
  handle_unknown : HandleUnknown;
  unknown_value : Q;
  encoded_missing_value : Q;
  categories_ : list (list value)
}.

(** The fitted Yeo-Johnson map and standardisation of each numeric column. *)
Record PowerTransformer : Type := mkPowerTransformer {
  fitted_maps : list (Q -> Q)
}.

(** [ColumnTransformer([("num", num_tf, num_feats), ("cat", cat_tf, cat_feats)])]. *)
Record ColumnTransformer : Type := mkColumnTransformer {
  num_tf : PowerTransformer;
  num_feats : list string;
  cat_tf : OrdinalEncoder;
  cat_feats : list string
}.

Fixpoint index_of (v : value) (cats : list value) : option nat :=
  match cats with
  | [] => None
  | c :: rest =>
      if value_eqb c v then Some O
      else match index_of v rest with
           | Some i => Some (S i)
           | None => None
           end
  end.

(** Whether the fitted categories of a column are strings (an object array
    of [str]) rather than numbers. *)
Definition fitted_on_strings (cats : list value) : bool := existsb is_str cats.


(** [OrdinalEncoder.transform] on the cell of a one-row frame.  A number or
    [np.nan] makes the column a float column, and the library cannot look
    for missing values among categories that are strings: it raises
    [TypeError].  Otherwise a fitted category is encoded by its position,
    except [np.nan], which is encoded by [encoded_missing_value] when it was
    among the fitted categories; a cell that is no fitted category (a
    [np.nan] that was not seen at fit time included) is unknown. *)
Definition ordinal_encode (enc : OrdinalEncoder) (cats : list value) (v : value)
  : result Q :=
  if fitted_on_strings cats && negb (is_str v) then Raise TypeError
  else
    match index_of v cats with
    | Some i =>
        Ok (if is_nan v then encoded_missing_value enc
            else inject_Z (Z.of_nat i))
    | None =>
        match handle_unknown enc with
        | UseEncodedValue => Ok (unknown_value enc)
        | ErrorOnUnknown => Raise (ValueError "Found unknown categories")
        end
    end.

(** [PowerTransformer.transform] on one cell: missing values are kept.  (The
    library converts a string that reads as a number; the conversion of
    text to numbers is not embedded, and every string raises.) *)
Definition power_transform (f : Q -> Q) (v : value) : result value :=
  match v with
  | Num q => Ok (Num (f q))
  | NaN => Ok NaN
  | Str _ => Raise (ValueError "could not convert string to float")
  end.

Fixpoint transform_num (maps : list (Q -> Q)) (cols : list string) (X : dict)
  : result (list value) :=
  match cols, maps with
  | [], [] => Ok []
  | c :: cols', f :: maps' =>
      v <- dict_getitem X c ;;
      y <- power_transform f v ;;
      ys <- transform_num maps' cols' X ;;
      Ok (y :: ys)
  | _, _ => Raise (ValueError "X has a different number of features than the fitted transformer")
  end.

Fixpoint transform_cat (enc : OrdinalEncoder) (cats : list (list value))
  (cols : list string) (X : dict) : result (list value) :=
  match cols, cats with
  | [], [] => Ok []
  | c :: cols', cs :: cats' =>
      v <- dict_getitem X c ;;
      y <- ordinal_encode enc cs v ;;
      ys <- transform_cat enc cats' cols' X ;;
      Ok (Num y :: ys)
  | _, _ => Raise (ValueError "X has a different number of features than the fitted transformer")
  end.

Definition has_column (X : dict) (c : string) : bool :=
  match dict_get X c with
  | Some _ => true
  | None => false
  end.

(** The columns that the transformers name and the frame lacks. *)
Definition missing_columns (p : ColumnTransformer) (X : dict) : list string :=
  filter (fun c => negb (has_column X c)) (num_feats p ++ cat_feats p)%list.

(** [ColumnTransformer.transform] on a one-row frame.  A frame without
    columns has no feature names, and the check of the named columns raises
    [TypeError] on it.  Otherwise the named columns must all be present (the
    library's message goes on with the set of the missing names); the blocks
    are stacked in the order of the transformers. *)
Definition transform (p : ColumnTransformer) (X : dict) : result (list value) :=
  match X with
  | [] => Raise TypeError
  | _ :: _ =>
      match missing_columns p X with
      | _ :: _ => Raise (ValueError "columns are missing")
      | [] =>
          xs <- transform_num (fitted_maps (num_tf p)) (num_feats p) X ;;
          ys <- transform_cat (cat_tf p) (categories_ (cat_tf p))
                  (cat_feats p) X ;;
          Ok (xs ++ ys)%list
      end
  end.

(** [ColumnTransformer.get_feature_names_out]. *)
Definition get_feature_names_out (p : ColumnTransformer) : list string :=
  (map (fun c => "num__" ++ c)%string (num_feats p)
   ++ map (fun c => "cat__" ++ c)%string (cat_feats p))%list.

End Sklearn.

Import Sklearn.

(** ** features.py *)

Module Features.

(** [create_preprocessor]: the unfitted transformer.  (The adjacent literals
    [''] and ['Loan_per_Emp'] of the source concatenate to one name.) *)
Definition create_preprocessor : ColumnTransformer :=
  let num_feats :=
    ["GrAppv"; "NAFIN_Appv"; "Debt_to_NAFIN"; "Log_GrAppv"; "Term";
     "Term_Years"; "NoEmp"; "NAFIN_Portion"; "Loan_per_Emp";
     "Log_Loan_per_Emp"; "HasRealEstate"; "RealEstate_Exposure";
     "InRecession"; "Bank_Exposure"; "Bank_Exposure_Ratio"; "Loan_Age";
     "Bank_Frequency"; "Bank_Frequency_Log"] in
  let cat_feats := ["SCIAN"; "State"; "Region"; "IsNewBusiness"; "IsUrban"] in
  let cat_tf :=
    mkOrdinalEncoder UseEncodedValue (-1) (-2) [] in
  mkColumnTransformer (mkPowerTransformer []) num_feats cat_tf cat_feats.

(** A transformer obtained from [unfitted] by fitting: the configuration is
    unchanged and every column has its fitted state. *)
Definition fitted_from (unfitted p : ColumnTransformer) : Prop :=
  num_feats p = num_feats unfitted /\
  cat_feats p = cat_feats unfitted /\
  handle_unknown (cat_tf p) = handle_unknown (cat_tf unfitted) /\
  unknown_value (cat_tf p) = unknown_value (cat_tf unfitted) /\
  encoded_missing_value (cat_tf p) = encoded_missing_value (cat_tf unfitted) /\
  length (fitted_maps (num_tf p)) = length (num_feats p) /\
  length (categories_ (cat_tf p)) = length (cat_feats p).

(** [transform_data]: the transformed row as a frame under the output names.
    (The dense matrix has no [toarray]; [get_feature_names_out] exists in
    every library version that accepts [encoded_missing_value].) *)
Definition transform_data (preprocessor : ColumnTransformer) (X : dict)
  : result dict :=
  X_mat <- transform preprocessor X ;;
  let cols := get_feature_names_out preprocessor in
  Ok (combine cols X_mat).

(** [prepare_data], the feature engineering of one cleaned training row.
    The columns are computed element-wise by pandas and NumPy; each
    definition is the computation of one cell from the cells of the same
    row, after the cleaning ([fillna], [astype]) of the base fields.  The
    columns that need the whole frame ([Loan_Age], [Bank_Frequency]), a
    logarithm, or a quotient that NumPy may leave non-finite
    ([Loan_per_Emp]) are not embedded. *)
Module prepare_data.

(** [np.clip(x, lo, hi)], as [.clip(0, 1)] applies it. *)
Definition clip (lo hi x : Q) : Q :=
  let y := if Qltb x lo then lo else x in
  if Qltb hi y then hi else y.

(** [Series.clip(lower=lo)]. *)
Definition clip_lower (lo x : Q) : Q := if Qltb x lo then lo else x.

(** [(df['NewExist'] == 1).astype(int)]. *)
Definition IsNewBusiness (NewExist : Q) : Q :=
  if Qeq_bool NewExist 1 then 1 else 0.

(** [.astype(str).str[:2].replace({'0': '00', 'na': '00', 'nan': '00'})] on
    the text of one cell ([nan] is the text of a missing cell). *)
Definition SCIAN (text : string) : string :=
  let code := prefix 2 text in
  if String.eqb code "0" || String.eqb code "na" || String.eqb code "nan"
  then "00" else code.

(** [np.where(GrAppv > 0, NAFIN_Appv / GrAppv, 0.0).clip(0, 1)]: the
    quotient is selected only where the divisor is positive. *)
Definition NAFIN_Portion (GrAppv NAFIN_Appv : Q) : Q :=
  clip 0 1 (if Qltb 0 GrAppv then NAFIN_Appv / GrAppv else 0).

(** [df['Term'] / 12]. *)
Definition Term_Years (Term : Z) : Q := inject_Z Term / 12.

(** [(df['GrAppv'] - df['NAFIN_Appv']).clip(lower=0)]. *)
Definition Debt_to_NAFIN (GrAppv NAFIN_Appv : Q) : Q :=
  clip_lower 0 (GrAppv - NAFIN_Appv).



(** [df['HasRealEstate'] * df['GrAppv']]. *)
Definition RealEstate_Exposure (HasRealEstate GrAppv : Q) : Q :=
  HasRealEstate * GrAppv.

Definition north : list string := ["NL"; "CHIH"; "TAM"; "COAH"; "SON"].
Definition center : list string := ["CDMX"; "MEX"; "PUE"; "HGO"; "QRO"].
Definition south : list string := ["CHIS"; "OAX"; "TAB"; "CAM"; "YUC"; "QROO"].

(** [Series.isin] on one cell. *)
Definition isin (s : string) (l : list string) : bool :=
  existsb (String.eqb s) l.

(** [np.select([isin(north), isin(center), isin(south)],
    ["North", "Center", "South"], default="Other")]: the first condition
    that holds decides. *)
Definition Region (State : string) : string :=
  if isin State north then "North"
  else if isin State center then "Center"
  else if isin State south then "South"
  else "Other".

End prepare_data.

End Features.

Import Features.

(** ** quoter.py *)

Module Quoter.

(** The unpickled [artifacts] dictionary: the fitted preprocessor, the two
    scorers ([predict_proba(X)[:, 1][0]] and [predict(X)[0]] on the
    transformed frame) and the calibration factor. *)
Record Artifacts : Type := mkArtifacts {
  preprocessor : ColumnTransformer;
  pd_model : dict -> Q;
  lgd_model : dict -> Q;
  calibration_factor : Q
}.

(** The model files of the working directory, by name. *)
Definition FS : Type := string -> option Artifacts.

Definition calculate_nafin_guarantee (approved_amount : Q) : Q :=
  if Qle_bool approved_amount 2000000
  then approved_amount * 0.80
  else approved_amount * 0.70.

Definition calculate_monthly_payment (principal annual_rate : Q)
  (term_months : Z) : result Q :=
  if Qeq_bool annual_rate 0 then pydiv principal (inject_Z term_months)
  else
    let monthly_rate := (annual_rate / 100) / 12 in
    growth <- pypow (1 + monthly_rate) term_months ;;
    growth' <- pypow (1 + monthly_rate) term_months ;;
    pydiv (principal * (monthly_rate * growth)) (growth' - 1).

Definition model_files : list string := ["sba_mexico_model.pkl"; "sba_model.pkl"].

(** The loop of [load_models]: the first model file that exists. *)
Fixpoint first_existing (fs : FS) (files : list string) : option Artifacts :=
  match files with
  | [] => None
  | f :: rest =>
      match fs f with
      | Some a => Some a
      | None => first_existing fs rest
      end
  end.

Section WithEnvironment.

(** [np.log1p], and the effect of [train.main()] on the model files. *)
Variable log1p : Q -> value.
Variable train_main : FS -> result unit * FS.

Definition create_loan_features (approved_amount : Q)
  (term_months num_employees : Z) (is_new_business : bool)
  (scian_code state_code : string) : result dict :=
  let nafin_guaranteed := calculate_nafin_guarantee approved_amount in
  nafin_portion <-
    (if Qltb 0 approved_amount
     then pydiv nafin_guaranteed approved_amount
     else Ok 0) ;;
  loan_per_employee <-
    pydiv approved_amount (inject_Z (num_employees + 1)) ;;
  Ok [ ("GrAppv", Num approved_amount);
       ("NAFIN_Appv", Num nafin_guaranteed);
       ("Term", Num (inject_Z term_months));
       ("NoEmp", Num (inject_Z num_employees));
       ("IsNewBusiness", Num (if is_new_business then 1 else 0));
       ("NewExist", Num (if is_new_business then 1 else 2));
       ("SCIAN", Str (prefix 2 scian_code));
       ("State", Str (upper state_code));
       ("NAFIN_Portion", Num nafin_portion);
       ("Loan_per_Employee", Num loan_per_employee);
       ("Term_Years", Num (inject_Z term_months / 12));
       ("Debt_to_NAFIN", Num (approved_amount - nafin_guaranteed));
       ("Log_GrAppv", log1p approved_amount);
       ("HasRealEstate", Num 0);
       ("InRecession", Num 0);
       ("IsUrban", Num 1) ].

Definition load_models (fs : FS) : result Artifacts * FS :=
  match first_existing fs model_files with
  | Some artifacts => (Ok artifacts, fs)
  | None =>
      match train_main fs with
      | (Raise e, fs') => (Raise e, fs')
      | (Ok _, fs') =>
          match fs' "sba_mexico_model.pkl" with
          | Some artifacts => (Ok artifacts, fs')
          | None => (Raise (FileNotFoundError "sba_mexico_model.pkl"), fs')
          end
      end
  end.

Definition calculate_quote (approved_amount : Q) (term_months num_employees : Z)
  (is_new_business : bool) (scian_code state_code : string) (bank_rate : Q)
  (has_real_estate in_recession : bool) (fs : FS) : result dict * FS :=
  let (loaded, fs') := load_models fs in
  (artifacts <- loaded ;;
   loan_df <- create_loan_features approved_amount term_months num_employees
                is_new_business scian_code state_code ;;
   let loan_df :=
     dict_set loan_df "HasRealEstate" (Num (if has_real_estate then 1 else 0)) in
   let loan_df :=
     dict_set loan_df "InRecession" (Num (if in_recession then 1 else 0)) in
   X_processed <- transform_data (preprocessor artifacts) loan_df ;;
   let pd_pred := pd_model artifacts X_processed in
   let lgd_pred := lgd_model artifacts X_processed in
   let el_pred := pd_pred * lgd_pred * calibration_factor artifacts in
   let nafin_guaranteed := calculate_nafin_guarantee approved_amount in
   let guarantee_fee := el_pred * 1.20 in
   let guarantee_fee := pymax guarantee_fee (nafin_guaranteed * 0.005) in
   let guarantee_fee := pymin guarantee_fee (nafin_guaranteed * 0.05) in
   let total_financed := approved_amount + guarantee_fee in
   monthly_payment <-
     calculate_monthly_payment total_financed bank_rate term_months ;;
   Ok [ ("approved_amount", Num approved_amount);
        ("nafin_guaranteed", Num nafin_guaranteed);
        ("pd", Num pd_pred);
        ("lgd", Num lgd_pred);
        ("expected_loss", Num el_pred);
        ("guarantee_fee", Num guarantee_fee);
        ("total_financed", Num total_financed);
        ("monthly_payment", Num monthly_payment);
        ("term_months", Num (inject_Z term_months));
        ("bank_rate", Num bank_rate);
        ("scian_code", Str scian_code);
        ("state", Str state_code) ],
   fs').

End WithEnvironment.

(** What [print_quote] can raise: an exception of [exn], or the
    [AttributeError] of a method missing on the cell. *)
Inductive print_error : Type :=
| Exn (e : exn)
| AttributeError.

Inductive printed (A : Type) : Type :=
| Printed (a : A)
| Failed (e : print_error).

Arguments Printed {A} a.
Arguments Failed {A} e.

Definition pbind {A B : Type} (r : printed A) (k : A -> printed B) : printed B :=
  match r with
  | Printed a => k a
  | Failed e => Failed e
  end.

Notation "x <~ e ;; k" := (pbind e (fun x => k))
  (at level 61, e at next level, right associativity).
Notation "'_' <~ e ;; k" := (pbind e (fun _ => k))
  (at level 61, e at next level, right associativity).

(** The risk labels of the report: BAJO, MODERADO, MEDIO-ALTO, ALTO. *)
Inductive RiskLevel : Type :=
| BAJO
| MODERADO
| MEDIO_ALTO
| ALTO.

(** The labels in increasing order of risk. *)
Definition risk_rank (level : RiskLevel) : nat :=
  match level with
  | BAJO => 0
  | MODERADO => 1
  | MEDIO_ALTO => 2
  | ALTO => 3
  end.

(** What the report computes beyond the cells of the quote: the sector and
    state names, the risk label and the fee as a percentage of the
    guaranteed amount. *)
Record Report : Type := mkReport {
  sector_name : string;
  state_name : string;
  risk_level : RiskLevel;
  fee_pct : value
}.

Section WithTables.

(** [np.log1p] and [train.main()] as before; the two name tables that
    [quoter.py] imports (their definitions are not in the sources); and
    Python's [str] on a number. *)
Variable log1p : Q -> value.
Variable train_main : FS -> result unit * FS.
Variable SECTORES_SCIAN : list (string * string).
Variable ESTADOS_MEXICO : list (string * string).
Variable str_of_number : Q -> string.

(** [table.get(key, default)]. *)
Fixpoint table_get (table : list (string * string)) (key default : string)
  : string :=
  match table with
  | [] => default
  | (k, v) :: rest => if String.eqb k key then v else table_get rest key default
  end.

(** [str(cell)]. *)
Definition str (v : value) : string :=
  match v with
  | Str s => s
  | Num q => str_of_number q
  | NaN => "nan"
  end.

(** [cell.upper()]: only a string has the method. *)
Definition upper_of (v : value) : printed string :=
  match v with
  | Str s => Printed (upper s)
  | _ => Failed AttributeError
  end.

(** A cell under a float format ([:,.2f], [:.2f]): a string has no such
    format. *)
Definition formatted (quote : dict) (key : string) : printed value :=
  match dict_get quote key with
  | None => Failed (Exn (KeyError key))
  | Some (Str _) =>
      Failed (Exn (ValueError "Unknown format code 'f' for object of type 'str'"))
  | Some v => Printed v
  end.

(** A cell under the default format. *)
Definition shown (quote : dict) (key : string) : printed value :=
  match dict_get quote key with
  | None => Failed (Exn (KeyError key))
  | Some v => Printed v
  end.

(** The [if / elif] chain of [print_quote]; every comparison with a
    missing number is false. *)
Definition risk_level_of (pd : value) : RiskLevel :=
  match pd with
  | Num q =>
      if Qltb q 0.05 then BAJO
      else if Qltb q 0.10 then MODERADO
      else if Qltb q 0.15 then MEDIO_ALTO
      else ALTO
  | _ => ALTO
  end.

(** [(fee / guaranteed) * 100] on floats: a zero divisor raises, a missing
    operand gives a missing result. *)
Definition fee_percentage (fee guaranteed : value) : printed value :=
  match guaranteed with
  | Num g =>
      if Qeq_bool g 0 then Failed (Exn ZeroDivisionError)
      else match fee with
           | Num f => Printed (Num (f / g * 100))
           | _ => Printed NaN
           end
  | _ => Printed NaN
  end.

(** [print_quote]: the lookups, tests and arithmetic of the report, in the
    order of the source.  The layout of the printed text is not embedded,
    and the lines printed before an exception are not kept. *)
Definition print_quote (quote : dict) : printed Report :=
  scian <~ shown quote "scian_code" ;;
  let sector := table_get SECTORES_SCIAN (prefix 2 (str scian)) "No especificado" in
  state <~ shown quote "state" ;;
  state_key <~ upper_of state ;;
  let state_label := table_get ESTADOS_MEXICO state_key (str state) in
  _ <~ formatted quote "approved_amount" ;;
  _ <~ formatted quote "nafin_guaranteed" ;;
  pd <~ formatted quote "pd" ;;
  _ <~ formatted quote "lgd" ;;
  _ <~ formatted quote "expected_loss" ;;
  let risk := risk_level_of pd in
  fee <~ formatted quote "guarantee_fee" ;;
  guaranteed <~ shown quote "nafin_guaranteed" ;;
  pct <~ fee_percentage fee guaranteed ;;
  _ <~ formatted quote "approved_amount" ;;
  _ <~ formatted quote "guarantee_fee" ;;
  _ <~ formatted quote "total_financed" ;;
  _ <~ formatted quote "bank_rate" ;;
  _ <~ shown quote "term_months" ;;
  _ <~ formatted quote "monthly_payment" ;;
  Printed (mkReport sector state_label risk pct).

(** [quick_quote]: the quote with both optional flags at their default,
    printed and returned. *)
Definition quick_quote (amount : Q) (term employees : Z) (is_new : bool)
  (scian state : string) (rate : Q) (fs : FS) : printed (Report * dict) * FS :=
  let (quoted, fs') :=
    calculate_quote log1p train_main amount term employees is_new scian state
      rate false false fs in
  (match quoted with
   | Raise e => Failed (Exn e)
   | Ok quote =>
       report <~ print_quote quote ;;
       Printed (report, quote)
   end,
   fs').

End WithTables.

End Quoter.

Import Quoter.

(** ** app.py: what the form reads from a quote *)

Module App.

(** [category = quote['gps_category']]. *)
Definition gps_category (quote : dict) : result value :=
  dict_getitem quote "gps_category".

End App.

(** ** The specification's formulas, as it words them *)

Module Spec.

(** [clamp(raw_fee, floor, cap)]. *)
Definition clamp (x lo hi : Q) : Q :=
  if Qltb x lo then lo else if Qltb hi x then hi else x.

(** Standard fixed-rate amortization of [total_financed]. *)
Definition amortization (total_financed annual_rate : Q) (term : Z) : Q :=
  if Qeq_bool annual_rate 0 then total_financed / inject_Z term
  else
    let monthly_rate := (annual_rate / 100) / 12 in
    total_financed * monthly_rate * (1 + monthly_rate) ^ term
    / ((1 + monthly_rate) ^ term - 1).

(** The sixteen keys of the inference-time feature record. *)
Definition inference_keys : list string :=
  ["GrAppv"; "NAFIN_Appv"; "Term"; "NoEmp"; "IsNewBusiness"; "NewExist";
   "SCIAN"; "State"; "NAFIN_Portion"; "Loan_per_Employee"; "Term_Years";
   "Debt_to_NAFIN"; "Log_GrAppv"; "HasRealEstate"; "InRecession"; "IsUrban"].

(** The preprocessor inputs that the inference-time record does not carry. *)
Definition absent_inputs : list string :=
  ["Loan_per_Emp"; "Log_Loan_per_Emp"; "RealEstate_Exposure"; "Bank_Exposure";
   "Bank_Exposure_Ratio"; "Loan_Age"; "Bank_Frequency"; "Bank_Frequency_Log";
   "Region"].

End Spec.

(** ** A concrete environment, to run the definitions *)

Module Sample.

(** A rational stand-in for [np.log1p]; the logarithm itself is not
    rational, and no statement below depends on its values. *)
Definition log1p (x : Q) : value := Num x.

(** A preprocessor fitted on the columns that the inference-time record
    carries: the lists of [create_preprocessor] without the absent inputs. *)
Definition preprocessor : ColumnTransformer :=
  let id := fun x : Q => x in
  mkColumnTransformer
    (mkPowerTransformer [id; id; id; id; id; id; id; id; id; id])
    ["GrAppv"; "NAFIN_Appv"; "Debt_to_NAFIN"; "Log_GrAppv"; "Term";
     "Term_Years"; "NoEmp"; "NAFIN_Portion"; "HasRealEstate"; "InRecession"]
    (mkOrdinalEncoder UseEncodedValue (-1) (-2)
       [[Str "31"; Str "46"]; [Str "CDMX"; Str "JAL"];
        [Num 0; Num 1]; [Num 0; Num 1]])
    ["SCIAN"; "State"; "IsNewBusiness"; "IsUrban"].

(** Artifacts whose scorers answer [pd] and [lgd] on every frame. *)
Definition artifacts (pd lgd : Q) : Artifacts :=
  mkArtifacts preprocessor (fun _ => pd) (fun _ => lgd) 1.

(** Artifacts with the preprocessor fitted from [create_preprocessor] on
    one training row per category. *)
Definition shipped_preprocessor : ColumnTransformer :=
  let id := fun x : Q => x in
  mkColumnTransformer
    (mkPowerTransformer (repeat id 18))
    (num_feats create_preprocessor)
    (mkOrdinalEncoder UseEncodedValue (-1) (-2)
       [[Str "31"; Str "46"]; [Str "CDMX"; Str "JAL"];
        [Str "Center"; Str "Other"]; [Num 0; Num 1]; [Num 0; Num 1]])
    (cat_feats create_preprocessor).

Definition no_files : FS := fun _ => None.

(** A working directory that holds [a] as the main model file. *)
Definition fs_with (a : Artifacts) : FS :=
  fun f => if String.eqb f "sba_mexico_model.pkl" then Some a else None.

(** A working directory that holds [a] as the legacy model file only. *)
Definition fs_legacy (a : Artifacts) : FS :=
  fun f => if String.eqb f "sba_model.pkl" then Some a else None.

(** A training run that writes [a] as the main model file. *)
Definition train_writes (a : Artifacts) (fs : FS) : result unit * FS :=
  (Ok tt,
   fun f => if String.eqb f "sba_mexico_model.pkl" then Some a else fs f).

(** A training run that fails before writing anything. *)
Definition train_fails (fs : FS) : result unit * FS :=
  (Raise (FileNotFoundError "train.py"), fs).

(** Artifacts whose preprocessor was fitted on the amount and the sector
    only. *)
Definition amount_and_sector (pd lgd : Q) : Artifacts :=
  mkArtifacts
    (mkColumnTransformer
       (mkPowerTransformer [fun x : Q => x]) ["GrAppv"]
       (mkOrdinalEncoder UseEncodedValue (-1) (-2) [[Str "31"; Str "46"]])
       ["SCIAN"])
    (fun _ => pd) (fun _ => lgd) 1.

(** Two entries of each name table, and a stand-in for [str] on numbers. *)
Definition sectores : list (string * string) :=
  [("31", "Industrias manufactureras"); ("46", "Comercio al por menor")].

Definition estados : list (string * string) :=
  [("CDMX", "Ciudad de Mexico"); ("JAL", "Jalisco")].

Definition str_of_number (q : Q) : string := "0".

End Sample.

(** * Properties *)

(** ** Arithmetic of the Python primitives *)

Lemma Qltb_lt (x y : Q) : Qltb x y = true <-> x < y.
Proof.
  unfold Qltb. rewrite negb_true_iff. split.
  - intros H. apply Qnot_le_lt. intro Hle.
    apply Qle_bool_iff in Hle. congruence.
  - intros H. destruct (Qle_bool y x) eqn:E; [|reflexivity].
    apply Qle_bool_iff in E. lra.
Qed.

Lemma Qltb_ge (x y : Q) : Qltb x y = false <-> y <= x.
Proof.
  unfold Qltb. rewrite negb_false_iff. apply Qle_bool_iff.
Qed.

Lemma Qle_bool_false (x y : Q) : Qle_bool x y = false <-> y < x.
Proof.
  split.
  - intros H. apply Qnot_le_lt. intro Hle.
    apply Qle_bool_iff in Hle. congruence.
  - intros H. destruct (Qle_bool x y) eqn:E; [|reflexivity].
    apply Qle_bool_iff in E. lra.
Qed.

Lemma pymin_pymax_clamp (x lo hi : Q) :
  lo <= hi -> pymin (pymax x lo) hi = Spec.clamp x lo hi.
Proof.
  intros Hle. unfold pymin, pymax, Spec.clamp.
  destruct (Qltb x lo) eqn:E1.
  - destruct (Qltb hi lo) eqn:E2; [|reflexivity].
    apply Qltb_lt in E2. lra.
  - reflexivity.
Qed.

Lemma clamp_bounds (x lo hi : Q) :
  lo <= hi -> lo <= Spec.clamp x lo hi /\ Spec.clamp x lo hi <= hi.
Proof.
  intros Hle. unfold Spec.clamp.
  destruct (Qltb x lo) eqn:E1.
  - split; lra.
  - apply Qltb_ge in E1. destruct (Qltb hi x) eqn:E2.
    + split; lra.
    + apply Qltb_ge in E2. split; lra.
Qed.

Lemma nafin_guarantee_pos (a : Q) : 0 < a -> 0 < calculate_nafin_guarantee a.
Proof.
  intros H. unfold calculate_nafin_guarantee.
  destruct (Qle_bool a 2000000); lra.
Qed.

Lemma nafin_guarantee_zero (a : Q) : a == 0 -> calculate_nafin_guarantee a == 0.
Proof.
  intros H. unfold calculate_nafin_guarantee.
  destruct (Qle_bool a 2000000); lra.
Qed.

(** ** The steps of a quote *)

Lemma bind_Ok {A B : Type} (r : result A) (k : A -> result B) (b : B) :
  bind r k = Ok b -> exists a, r = Ok a /\ k a = Ok b.
Proof.
  destruct r as [a|e]; simpl; intros H; [eauto | discriminate].
Qed.

Section QuoteSteps.

Variable log1p : Q -> value.
Variable train_main : FS -> result unit * FS.

(** The frame handed to the preprocessor, the fee and the returned record,
    as [calculate_quote] builds them. *)
Local Abbreviation adjusted loan_df has_real_estate in_recession :=
  (dict_set
     (dict_set loan_df "HasRealEstate" (Num (if has_real_estate then 1 else 0)))
     "InRecession" (Num (if in_recession then 1 else 0))).

Local Abbreviation expected_loss artifacts X :=
  (pd_model artifacts X * lgd_model artifacts X * calibration_factor artifacts).

Local Abbreviation fee_of artifacts X amount :=
  (pymin
     (pymax (expected_loss artifacts X * 1.20)
        (calculate_nafin_guarantee amount * 0.005))
     (calculate_nafin_guarantee amount * 0.05)).

Local Abbreviation quote_of artifacts X amount term rate scian state payment :=
  [ ("approved_amount", Num amount);
    ("nafin_guaranteed", Num (calculate_nafin_guarantee amount));
    ("pd", Num (pd_model artifacts X));
    ("lgd", Num (lgd_model artifacts X));
    ("expected_loss", Num (expected_loss artifacts X));
    ("guarantee_fee", Num (fee_of artifacts X amount));
    ("total_financed", Num (amount + fee_of artifacts X amount));
    ("monthly_payment", Num payment);
    ("term_months", Num (inject_Z term));
    ("bank_rate", Num rate);
    ("scian_code", Str scian);
    ("state", Str state) ].

Lemma calculate_quote_inv (a : Q) (t n : Z) (is_new : bool) (sc st : string)
  (rate : Q) (hre rec : bool) (fs : FS) (q : dict) :
  fst (calculate_quote log1p train_main a t n is_new sc st rate hre rec fs) = Ok q ->
  exists artifacts loan_df X payment,
    fst (load_models train_main fs) = Ok artifacts /\
    create_loan_features log1p a t n is_new sc st = Ok loan_df /\
    transform_data (preprocessor artifacts) (adjusted loan_df hre rec) = Ok X /\
    calculate_monthly_payment (a + fee_of artifacts X a) rate t = Ok payment /\
    q = quote_of artifacts X a t rate sc st payment.
Proof.
  unfold calculate_quote.
  destruct (load_models train_main fs) as [loaded fs']. simpl.
  intros H.
  apply bind_Ok in H. destruct H as (artifacts & Hload & H).
  apply bind_Ok in H. destruct H as (loan_df & Hfeat & H).
  apply bind_Ok in H. destruct H as (X & HX & H).
  apply bind_Ok in H. destruct H as (payment & Hpay & H).
  exists artifacts, loan_df, X, payment.
  repeat split; try assumption.
  now inversion H.
Qed.

Lemma calculate_quote_intro (a : Q) (t n : Z) (is_new : bool) (sc st : string)
  (rate : Q) (hre rec : bool) (fs : FS) artifacts loan_df X payment :
  fst (load_models train_main fs) = Ok artifacts ->
  create_loan_features log1p a t n is_new sc st = Ok loan_df ->
  transform_data (preprocessor artifacts) (adjusted loan_df hre rec) = Ok X ->
  calculate_monthly_payment (a + fee_of artifacts X a) rate t = Ok payment ->
  fst (calculate_quote log1p train_main a t n is_new sc st rate hre rec fs)
  = Ok (quote_of artifacts X a t rate sc st payment).
Proof.
  intros Hload Hfeat HX Hpay. unfold calculate_quote.
  destruct (load_models train_main fs) as [loaded fs']. simpl in *.
  subst loaded. simpl. rewrite Hfeat. simpl. rewrite HX. simpl.
  rewrite Hpay. reflexivity.
Qed.

(** The working directory after a quote is the one [load_models] leaves. *)
Lemma calculate_quote_state (a : Q) (t n : Z) (is_new : bool) (sc st : string)
  (rate : Q) (hre rec : bool) (fs : FS) :
  snd (calculate_quote log1p train_main a t n is_new sc st rate hre rec fs)
  = snd (load_models train_main fs).
Proof.
  unfold calculate_quote.
  destruct (load_models train_main fs) as [loaded fs']. reflexivity.
Qed.

(** The result of a quote depends on the working directory only through
    the artifacts that [load_models] returns. *)
Lemma calculate_quote_load (a : Q) (t n : Z) (is_new : bool) (sc st : string)
  (rate : Q) (hre rec : bool) (fs1 fs2 : FS) :
  fst (load_models train_main fs1) = fst (load_models train_main fs2) ->
  fst (calculate_quote log1p train_main a t n is_new sc st rate hre rec fs1)
  = fst (calculate_quote log1p train_main a t n is_new sc st rate hre rec fs2).
Proof.
  unfold calculate_quote.
  destruct (load_models train_main fs1) as [l1 s1].
  destruct (load_models train_main fs2) as [l2 s2]. simpl.
  intros ->. reflexivity.
Qed.

(** A model file found by the loop is returned and nothing is written. *)
Lemma load_models_existing (fs : FS) (artifacts : Artifacts) :
  first_existing fs model_files = Some artifacts ->
  load_models train_main fs = (Ok artifacts, fs).
Proof.
  intros H. unfold load_models. now rewrite H.
Qed.

(** After a successful load, the same artifacts are on disk. *)
Lemma load_models_stable (fs fs' : FS) (artifacts : Artifacts) :
  load_models train_main fs = (Ok artifacts, fs') ->
  load_models train_main fs' = (Ok artifacts, fs').
Proof.
  unfold load_models at 1.
  destruct (first_existing fs model_files) as [a0|] eqn:Hfirst.
  - intros H. inversion H; subst. now apply load_models_existing.
  - destruct (train_main fs) as [[u|e] fs1]; [|discriminate].
    destruct (fs1 "sba_mexico_model.pkl") as [a1|] eqn:Hfile; [|discriminate].
    intros H. inversion H; subst.
    apply load_models_existing. simpl. now rewrite Hfile.
Qed.

End QuoteSteps.

(** ** Guarantee tiers *)

(** C6. For every approved amount: up to 2,000,000 the guaranteed amount is
    the amount times 0.80, above 2,000,000 it is the amount times 0.70. *)
Theorem nafin_guarantee_tiers (approved_amount : Q) :
  (approved_amount <= 2000000 ->
   calculate_nafin_guarantee approved_amount = approved_amount * 0.80) /\
  (2000000 < approved_amount ->
   calculate_nafin_guarantee approved_amount = approved_amount * 0.70).
Proof.
  unfold calculate_nafin_guarantee. split; intros H.
  - apply Qle_bool_iff in H. now rewrite H.
  - apply Qle_bool_false in H. now rewrite H.
Qed.

Lemma nafin_guarantee_tiers_witness :
  calculate_nafin_guarantee 2000000 = 2000000 * 0.80 /\
  calculate_nafin_guarantee 3000000 = 3000000 * 0.70.
Proof.
  split.
  - apply (proj1 (nafin_guarantee_tiers 2000000)). lra.
  - apply (proj2 (nafin_guarantee_tiers 3000000)). lra.
Defined.

(** ** The inference-time feature record and the preprocessor's inputs *)

Lemma In_existsb (c : string) (l : list string) :
  In c l <-> existsb (String.eqb c) l = true.
Proof.
  rewrite existsb_exists. split.
  - intros H. exists c. split; [assumption | apply String.eqb_refl].
  - intros (x & Hx & Heq). apply String.eqb_eq in Heq. now subst.
Qed.

Lemma create_loan_features_inv (log1p : Q -> value) (a : Q) (t n : Z)
  (is_new : bool) (sc st : string) (loan_df : dict) :
  create_loan_features log1p a t n is_new sc st = Ok loan_df ->
  keys loan_df = Spec.inference_keys.
Proof.
  unfold create_loan_features. intros H.
  apply bind_Ok in H. destruct H as (portion & _ & H).
  apply bind_Ok in H. destruct H as (per_employee & _ & H).
  inversion H. reflexivity.
Qed.

Lemma create_loan_features_returns (log1p : Q -> value) (a : Q) (t n : Z)
  (is_new : bool) (sc st : string) :
  (n <> -1)%Z ->
  exists loan_df, create_loan_features log1p a t n is_new sc st = Ok loan_df.
Proof.
  intros Hn. unfold create_loan_features.
  assert (Hdiv : Qeq_bool (inject_Z (n + 1)) 0 = false).
  { destruct (Qeq_bool (inject_Z (n + 1)) 0) eqn:E; [|reflexivity].
    apply Qeq_bool_eq in E. unfold Qeq in E. simpl in E. lia. }
  destruct (Qltb 0 a) eqn:Hpos.
  - apply Qltb_lt in Hpos.
    assert (Ha : Qeq_bool a 0 = false).
    { destruct (Qeq_bool a 0) eqn:E; [|reflexivity].
      apply Qeq_bool_eq in E. lra. }
    unfold pydiv. rewrite Ha, Hdiv. simpl. eauto.
  - unfold pydiv. rewrite Hdiv. simpl. eauto.
Qed.

(** C4. The record built by [create_loan_features] has exactly the sixteen
    keys of [Spec.inference_keys], and none of the nine preprocessor inputs
    of [Spec.absent_inputs], each of which [create_preprocessor] declares. *)
Theorem loan_features_keys (log1p : Q -> value) (a : Q) (t n : Z)
  (is_new : bool) (sc st : string) :
  (forall loan_df,
     create_loan_features log1p a t n is_new sc st = Ok loan_df ->
     keys loan_df = Spec.inference_keys /\
     length (keys loan_df) = 16%nat /\
     NoDup (keys loan_df) /\
     forall c, In c Spec.absent_inputs ->
       In c (num_feats create_preprocessor ++ cat_feats create_preprocessor)%list
       /\ ~ In c (keys loan_df)) /\
  ((n <> -1)%Z ->
   exists loan_df, create_loan_features log1p a t n is_new sc st = Ok loan_df).
Proof.
  split; [|apply create_loan_features_returns].
  intros loan_df H. apply create_loan_features_inv in H. rewrite H.
  split; [reflexivity|]. split; [reflexivity|]. split.
  - unfold Spec.inference_keys.
    repeat (constructor; [rewrite In_existsb; vm_compute; discriminate|]).
    constructor.
  - intros c Hc.
    assert (Hall : forallb (fun c =>
                     existsb (String.eqb c)
                       (num_feats create_preprocessor
                        ++ cat_feats create_preprocessor)%list
                     && negb (existsb (String.eqb c) Spec.inference_keys))
                   Spec.absent_inputs = true) by (vm_compute; reflexivity).
    rewrite forallb_forall in Hall. specialize (Hall c Hc).
    apply andb_true_iff in Hall. destruct Hall as [Hin Hout].
    split; [now apply In_existsb|].
    rewrite In_existsb. apply negb_true_iff in Hout. congruence.
Qed.

Lemma loan_features_keys_witness :
  exists loan_df,
    create_loan_features Sample.log1p 500000 36 12 false "46" "JAL" = Ok loan_df /\
    keys loan_df = Spec.inference_keys.
Proof.
  destruct (loan_features_keys Sample.log1p 500000 36 12 false "46" "JAL")
    as [Hkeys Hret].
  destruct Hret as [loan_df Hdf]; [lia|].
  exists loan_df. split; [assumption|].
  exact (proj1 (Hkeys loan_df Hdf)).
Defined.

(** ** Missing columns *)

Lemma dict_set_nonempty (d : dict) (k : string) (v : value) :
  dict_set d k v <> [].
Proof.
  destruct d as [|[k0 v0] d]; simpl; [discriminate|].
  destruct (String.eqb k0 k); discriminate.
Qed.

Lemma missing_column_rejected (p : ColumnTransformer) (X : dict) (c : string) :
  X <> [] ->
  In c (num_feats p ++ cat_feats p)%list ->
  dict_get X c = None ->
  transform_data p X = Raise (ValueError "columns are missing").
Proof.
  intros Hne Hin Hget. unfold transform_data, transform.
  destruct X as [|x X']; [contradiction|].
  destruct (missing_columns p (x :: X')) as [|c0 rest] eqn:Hmiss;
    [|reflexivity].
  exfalso.
  assert (Hc : In c (missing_columns p (x :: X'))).
  { unfold missing_columns. apply filter_In. split; [assumption|].
    unfold has_column. now rewrite Hget. }
  rewrite Hmiss in Hc. contradiction.
Qed.

(** The error for a missing column is the library's [ValueError]; a record
    without any column fails earlier, with [TypeError]. *)
Lemma missing_column_raises_value_error :
  transform_data Sample.shipped_preprocessor
    [("GrAppv", Num 500000); ("SCIAN", Str "46")]
  = Raise (ValueError "columns are missing") /\
  transform_data Sample.shipped_preprocessor [] = Raise TypeError.
Proof.
  split; reflexivity.
Qed.

(** C3, as the code behaves.  For every transformer and every record with
    at least one column that lacks one of the columns the transformer
    names, [transform_data] fails with the library's [ValueError] for
    missing columns; no vector is produced and no value is put in the absent
    column's place. *)
Theorem transform_data_missing_column (p : ColumnTransformer) (X : dict)
  (c : string) :
  X <> [] ->
  In c (num_feats p ++ cat_feats p)%list ->
  dict_get X c = None ->
  transform_data p X = Raise (ValueError "columns are missing").
Proof.
  exact (missing_column_rejected p X c).
Qed.

Lemma transform_data_missing_column_witness :
  transform_data Sample.shipped_preprocessor
    [("GrAppv", Num 500000); ("SCIAN", Str "46")]
  = Raise (ValueError "columns are missing").
Proof.
  apply (transform_data_missing_column _ _ "Region").
  - discriminate.
  - apply In_existsb. vm_compute. reflexivity.
  - reflexivity.
Defined.

(** The record of [create_loan_features], adjusted as [calculate_quote]
    does, is rejected by every preprocessor that names the columns of
    [create_preprocessor]. *)
Lemma created_preprocessor_rejects_loan_features (log1p : Q -> value)
  (p : ColumnTransformer) (a : Q) (t n : Z) (is_new : bool) (sc st : string)
  (hre rec : bool) (loan_df : dict) :
  fitted_from create_preprocessor p ->
  create_loan_features log1p a t n is_new sc st = Ok loan_df ->
  transform_data p
    (dict_set
       (dict_set loan_df "HasRealEstate" (Num (if hre then 1 else 0)))
       "InRecession" (Num (if rec then 1 else 0)))
  = Raise (ValueError "columns are missing").
Proof.
  intros (Hnum & Hcat & _) H.
  apply (missing_column_rejected _ _ "Region").
  - apply dict_set_nonempty.
  - rewrite Hnum, Hcat. apply In_existsb. vm_compute. reflexivity.
  - unfold create_loan_features in H.
    apply bind_Ok in H. destruct H as (portion & _ & H).
    apply bind_Ok in H. destruct H as (per_employee & _ & H).
    inversion H. reflexivity.
Qed.

(** X1. A quote whose artifacts carry a preprocessor fitted from
    [create_preprocessor] stops at the preprocessing step. *)
Lemma quote_rejected_with_created_preprocessor (log1p : Q -> value)
  (train_main : FS -> result unit * FS) (a : Q) (t n : Z) (is_new : bool)
  (sc st : string) (rate : Q) (hre rec : bool) (fs : FS)
  (artifacts : Artifacts) :
  fst (load_models train_main fs) = Ok artifacts ->
  fitted_from create_preprocessor (preprocessor artifacts) ->
  (n <> -1)%Z ->
  fst (calculate_quote log1p train_main a t n is_new sc st rate hre rec fs)
  = Raise (ValueError "columns are missing").
Proof.
  intros Hload Hfit Hn.
  destruct (create_loan_features_returns log1p a t n is_new sc st Hn)
    as [loan_df Hdf].
  unfold calculate_quote.
  destruct (load_models train_main fs) as [loaded fs']. simpl in *.
  subst loaded. simpl. rewrite Hdf. simpl.
  now rewrite (created_preprocessor_rejects_loan_features log1p
                 (preprocessor artifacts) a t n is_new sc st hre rec loan_df
                 Hfit Hdf).
Qed.

(** ** Categorical codes *)

Lemma index_of_code_nonneg (i : nat) :
  ~ inject_Z (Z.of_nat i) == -1 /\ ~ inject_Z (Z.of_nat i) == -2.
Proof.
  unfold Qeq. simpl. split; lia.
Qed.

(** C9, as the encoder behaves.  For every encoder configured as in
    [create_preprocessor] and every list of fitted categories: a string
    that is no fitted category of a column fitted on strings is encoded as
    -1 and never raises; a string that is a fitted category is encoded by
    its position, which is neither -1 nor -2; a missing value is encoded as
    -2 in a column fitted on numbers where it was seen at fit time, and is
    not encoded as -2 where it was not seen; the two reserved codes
    differ. *)
Theorem ordinal_codes (p : ColumnTransformer) (cats : list value) :
  fitted_from create_preprocessor p ->
  (forall s, fitted_on_strings cats = true -> index_of (Str s) cats = None ->
     ordinal_encode (cat_tf p) cats (Str s) = Ok (-1)) /\
  (forall s i, index_of (Str s) cats = Some i ->
     ordinal_encode (cat_tf p) cats (Str s) = Ok (inject_Z (Z.of_nat i)) /\
     ~ inject_Z (Z.of_nat i) == -1 /\ ~ inject_Z (Z.of_nat i) == -2) /\
  (forall i, fitted_on_strings cats = false -> index_of NaN cats = Some i ->
     ordinal_encode (cat_tf p) cats NaN = Ok (-2)) /\
  (index_of NaN cats = None ->
   ordinal_encode (cat_tf p) cats NaN <> Ok (-2)) /\
  ~ -2 == -1.
Proof.
  intros (_ & _ & Hhandle & Hunknown & Hmissing & _).
  simpl in Hhandle, Hunknown, Hmissing.
  split; [|split; [|split; [|split]]].
  - intros s Hstr Hs. unfold ordinal_encode. simpl.
    rewrite andb_false_r. now rewrite Hs, Hhandle, Hunknown.
  - intros s i Hidx. split; [|apply index_of_code_nonneg].
    unfold ordinal_encode. simpl. rewrite andb_false_r. now rewrite Hidx.
  - intros i Hnum Hi. unfold ordinal_encode. rewrite Hnum. simpl.
    rewrite Hi. simpl. now rewrite Hmissing.
  - intros Hi. unfold ordinal_encode.
    destruct (fitted_on_strings cats); simpl; [discriminate|].
    rewrite Hi, Hhandle, Hunknown. discriminate.
  - unfold Qeq. simpl. lia.
Qed.

Lemma ordinal_codes_witness :
  ordinal_encode (cat_tf Sample.shipped_preprocessor)
    [Str "31"; Str "46"] (Str "99") = Ok (-1) /\
  ordinal_encode (cat_tf Sample.shipped_preprocessor)
    [Str "31"; Str "46"] (Str "46") = Ok (inject_Z (Z.of_nat 1)) /\
  ordinal_encode (cat_tf Sample.shipped_preprocessor)
    [Num 0; Num 1; NaN] NaN = Ok (-2) /\
  ordinal_encode (cat_tf Sample.shipped_preprocessor)
    [Num 0; Num 1] NaN <> Ok (-2).
Proof.
  assert (Hfit : fitted_from create_preprocessor Sample.shipped_preprocessor)
    by (repeat split).
  split; [|split; [|split]].
  - exact (proj1 (ordinal_codes Sample.shipped_preprocessor
                    [Str "31"; Str "46"] Hfit) "99" eq_refl eq_refl).
  - exact (proj1 (proj1 (proj2 (ordinal_codes Sample.shipped_preprocessor
                    [Str "31"; Str "46"] Hfit)) "46" 1%nat eq_refl)).
  - exact (proj1 (proj2 (proj2 (ordinal_codes Sample.shipped_preprocessor
                    [Num 0; Num 1; NaN] Hfit))) 2%nat eq_refl eq_refl).
  - exact (proj1 (proj2 (proj2 (proj2
             (ordinal_codes Sample.shipped_preprocessor
                [Num 0; Num 1] Hfit)))) eq_refl).
Defined.

(** A missing cell is not encoded as the missing code -2 when no missing
    value was among the fitted categories: in the sector column, fitted on
    strings, the one-row frame makes the encoder raise [TypeError]. *)
Lemma missing_unseen_gets_no_missing_code :
  ordinal_encode (cat_tf Sample.shipped_preprocessor) [Str "31"; Str "46"] NaN
  = Raise TypeError /\
  ordinal_encode (cat_tf Sample.shipped_preprocessor) [Str "31"; Str "46"] NaN
  <> Ok (-2).
Proof.
  split; [reflexivity | discriminate].
Qed.

(** ** The returned record *)

Lemma quote_keys (log1p : Q -> value) (train_main : FS -> result unit * FS)
  (a : Q) (t n : Z) (is_new : bool) (sc st : string) (rate : Q)
  (hre rec : bool) (fs : FS) (q : dict) :
  fst (calculate_quote log1p train_main a t n is_new sc st rate hre rec fs) = Ok q ->
  keys q = ["approved_amount"; "nafin_guaranteed"; "pd"; "lgd";
            "expected_loss"; "guarantee_fee"; "total_financed";
            "monthly_payment"; "term_months"; "bank_rate"; "scian_code";
            "state"] /\
  App.gps_category q = Raise (KeyError "gps_category").
Proof.
  intros H. apply calculate_quote_inv in H.
  destruct H as (artifacts & loan_df & X & payment & _ & _ & _ & _ & ->).
  split; reflexivity.
Qed.

(** C1, on the code.  A quote for a loan whose PD is 0.005 is returned with
    the twelve keys below: it carries no risk category, and the lookup
    [quote['gps_category']] of the form raises [KeyError]. *)
Example quote_has_no_gps_category :
  exists q,
    fst (calculate_quote Sample.log1p Sample.train_fails
           500000 36 12 false "46" "JAL" 14.5 false false
           (Sample.fs_with (Sample.artifacts 0.005 100000))) = Ok q /\
    dict_get q "pd" = Some (Num 0.005) /\
    keys q = ["approved_amount"; "nafin_guaranteed"; "pd"; "lgd";
              "expected_loss"; "guarantee_fee"; "total_financed";
              "monthly_payment"; "term_months"; "bank_rate"; "scian_code";
              "state"] /\
    dict_get q "gps_category" = None /\
    App.gps_category q = Raise (KeyError "gps_category").
Proof.
  eexists. split; [vm_compute; reflexivity|].
  repeat split.
Qed.

(** ** Amortization *)

Lemma inject_Z_nonzero (t : Z) : (t <> 0)%Z -> Qeq_bool (inject_Z t) 0 = false.
Proof.
  intros Ht. destruct (Qeq_bool (inject_Z t) 0) eqn:E; [|reflexivity].
  apply Qeq_bool_eq in E. unfold Qeq in E. simpl in E. lia.
Qed.

Lemma Qeq_bool_false_neq (x : Q) : ~ x == 0 -> Qeq_bool x 0 = false.
Proof.
  intros Hx. destruct (Qeq_bool x 0) eqn:E; [|reflexivity].
  apply Qeq_bool_eq in E. contradiction.
Qed.

(** Whenever the payment is computed, it is the specification's formula. *)
Lemma monthly_payment_formula (principal rate : Q) (t : Z) (payment : Q) :
  calculate_monthly_payment principal rate t = Ok payment ->
  payment == Spec.amortization principal rate t.
Proof.
  unfold calculate_monthly_payment, Spec.amortization. cbv zeta.
  destruct (Qeq_bool rate 0).
  - unfold pydiv. destruct (Qeq_bool (inject_Z t) 0); [discriminate|].
    intros H. inversion H. reflexivity.
  - intros H.
    apply bind_Ok in H. destruct H as (g1 & Hg1 & H).
    apply bind_Ok in H. destruct H as (g2 & Hg2 & H).
    unfold pypow in Hg1, Hg2.
    destruct (Qeq_bool (1 + rate / 100 / 12) 0 && (t <? 0)%Z); [discriminate|].
    inversion Hg1; subst g1. inversion Hg2; subst g2.
    unfold pydiv in H.
    destruct (Qeq_bool ((1 + rate / 100 / 12) ^ t - 1) 0); [discriminate|].
    inversion H. unfold Qdiv. ring.
Qed.

(** At a zero rate the payment is the principal over the term. *)
Lemma zero_rate_payment (principal rate : Q) (t : Z) :
  rate == 0 -> (t <> 0)%Z ->
  calculate_monthly_payment principal rate t = Ok (principal / inject_Z t).
Proof.
  intros Hrate Ht. unfold calculate_monthly_payment.
  rewrite (Qeq_eq_bool _ _ Hrate). unfold pydiv.
  now rewrite inject_Z_nonzero by assumption.
Qed.

(** C7. For every quote, the monthly payment is the fixed-rate amortization
    of [total_financed = approved_amount + guarantee_fee]: the total over
    the term when the annual rate is 0, the annuity formula with
    [monthly_rate = (annual_rate / 100) / 12] otherwise; and amortizing
    120000 at 0% over 12 months gives 10000. *)
Theorem payment_is_amortization (log1p : Q -> value)
  (train_main : FS -> result unit * FS) (a : Q) (t n : Z) (is_new : bool)
  (sc st : string) (rate : Q) (hre rec : bool) (fs : FS) :
  (forall q,
     fst (calculate_quote log1p train_main a t n is_new sc st rate hre rec fs)
     = Ok q ->
     exists fee total payment,
       dict_get q "guarantee_fee" = Some (Num fee) /\
       dict_get q "total_financed" = Some (Num total) /\
       dict_get q "monthly_payment" = Some (Num payment) /\
       total = a + fee /\
       payment == Spec.amortization total rate t) /\
  (exists payment,
     calculate_monthly_payment 120000 0 12 = Ok payment /\ payment == 10000).
Proof.
  split.
  - intros q H. apply calculate_quote_inv in H.
    destruct H as (artifacts & loan_df & X & payment & _ & _ & _ & Hpay & ->).
    eexists _, _, payment.
    repeat (split; [reflexivity|]).
    now apply monthly_payment_formula.
  - eexists. split; [vm_compute; reflexivity|]. reflexivity.
Qed.

Lemma payment_is_amortization_witness :
  exists q fee payment,
    fst (calculate_quote Sample.log1p Sample.train_fails
           500000 36 12 false "46" "JAL" 14.5 false false
           (Sample.fs_with (Sample.artifacts 0.02 100000))) = Ok q /\
    dict_get q "guarantee_fee" = Some (Num fee) /\
    dict_get q "monthly_payment" = Some (Num payment) /\
    payment == Spec.amortization (500000 + fee) 14.5 36.
Proof.
  pose proof (payment_is_amortization Sample.log1p Sample.train_fails
                500000 36 12 false "46" "JAL" 14.5 false false
                (Sample.fs_with (Sample.artifacts 0.02 100000)))
    as (Hquote & _).
  assert (Hq : exists q,
             fst (calculate_quote Sample.log1p Sample.train_fails
                    500000 36 12 false "46" "JAL" 14.5 false false
                    (Sample.fs_with (Sample.artifacts 0.02 100000))) = Ok q)
    by (eexists; vm_compute; reflexivity).
  destruct Hq as (q & Hq).
  destruct (Hquote q Hq) as (fee & total & payment & Hfee & _ & Hget & Htot & Heq).
  subst total.
  exists q, fee, payment. repeat (split; [assumption|]). assumption.
Defined.

(** ** The guarantee fee *)

(** C2. For every quote of a positive approved amount, the fee is
    [clamp(EL * 1.20, guaranteed * 0.005, guaranteed * 0.05)] with
    [EL = pd * lgd * calibration], and so lies between the floor and the cap
    inclusive, however large [EL] is. *)
Theorem fee_is_clamped (log1p : Q -> value)
  (train_main : FS -> result unit * FS) (a : Q) (t n : Z) (is_new : bool)
  (sc st : string) (rate : Q) (hre rec : bool) (fs : FS) (q : dict) :
  0 < a ->
  fst (calculate_quote log1p train_main a t n is_new sc st rate hre rec fs)
  = Ok q ->
  exists artifacts pd lgd fee,
    fst (load_models train_main fs) = Ok artifacts /\
    dict_get q "pd" = Some (Num pd) /\
    dict_get q "lgd" = Some (Num lgd) /\
    dict_get q "nafin_guaranteed" = Some (Num (calculate_nafin_guarantee a)) /\
    dict_get q "guarantee_fee" = Some (Num fee) /\
    fee = Spec.clamp (pd * lgd * calibration_factor artifacts * 1.20)
            (calculate_nafin_guarantee a * 0.005)
            (calculate_nafin_guarantee a * 0.05) /\
    calculate_nafin_guarantee a * 0.005 <= fee /\
    fee <= calculate_nafin_guarantee a * 0.05.
Proof.
  intros Ha H. apply calculate_quote_inv in H.
  destruct H as (artifacts & loan_df & X & payment & Hload & _ & _ & _ & ->).
  pose proof (nafin_guarantee_pos a Ha) as Hg.
  assert (Hle : calculate_nafin_guarantee a * 0.005
                <= calculate_nafin_guarantee a * 0.05) by lra.
  exists artifacts, (pd_model artifacts X), (lgd_model artifacts X).
  eexists. split; [assumption|].
  repeat (split; [reflexivity|]).
  rewrite (pymin_pymax_clamp _ _ _ Hle).
  split; [reflexivity|]. now apply clamp_bounds.
Qed.

Lemma fee_is_clamped_witness :
  exists q fee,
    fst (calculate_quote Sample.log1p Sample.train_fails
           500000 36 12 false "46" "JAL" 14.5 false false
           (Sample.fs_with (Sample.artifacts 0.5 400000))) = Ok q /\
    dict_get q "guarantee_fee" = Some (Num fee) /\
    fee = Spec.clamp (0.5 * 400000 * 1 * 1.20)
            (calculate_nafin_guarantee 500000 * 0.005)
            (calculate_nafin_guarantee 500000 * 0.05) /\
    fee <= calculate_nafin_guarantee 500000 * 0.05.
Proof.
  assert (Hq : exists q,
             fst (calculate_quote Sample.log1p Sample.train_fails
                    500000 36 12 false "46" "JAL" 14.5 false false
                    (Sample.fs_with (Sample.artifacts 0.5 400000))) = Ok q /\
             dict_get q "pd" = Some (Num 0.5) /\
             dict_get q "lgd" = Some (Num 400000))
    by (eexists; split; [vm_compute; reflexivity | split; reflexivity]).
  destruct Hq as (q & Hq & Hpd & Hlgd).
  assert (Hpos : 0 < 500000) by lra.
  destruct (fee_is_clamped _ _ _ _ _ _ _ _ _ _ _ _ q Hpos Hq)
    as (artifacts & pd & lgd & fee & Hload & Hpd' & Hlgd' & _ & Hfee & Heq & _ & Hhi).
  rewrite Hpd in Hpd'. inversion Hpd'; subst pd.
  rewrite Hlgd in Hlgd'. inversion Hlgd'; subst lgd.
  assert (artifacts = Sample.artifacts 0.5 400000).
  { vm_compute in Hload. now inversion Hload. }
  subst artifacts.
  exists q, fee. repeat (split; [assumption|]). assumption.
Defined.

(** ** Zero amount and zero term *)

Lemma fee_zero (x g : Q) :
  g == 0 -> pymin (pymax x (g * 0.005)) (g * 0.05) == 0.
Proof.
  intros Hg.
  assert (Hle : g * 0.005 <= g * 0.05) by lra.
  rewrite (pymin_pymax_clamp _ _ _ Hle).
  destruct (clamp_bounds x _ _ Hle). lra.
Qed.

(** With a zero term and a fee at its floor the payment step divides by
    zero, at a zero rate and at a positive one; with a zero amount a quote is
    returned. *)
Lemma zero_inputs_not_rejected :
  fst (calculate_quote Sample.log1p Sample.train_fails
         500000 0 12 false "46" "JAL" 0 false false
         (Sample.fs_with (Sample.artifacts 0.001 100000)))
  = Raise ZeroDivisionError /\
  fst (calculate_quote Sample.log1p Sample.train_fails
         500000 0 12 false "46" "JAL" 14.5 false false
         (Sample.fs_with (Sample.artifacts 0.001 100000)))
  = Raise ZeroDivisionError /\
  exists q,
    fst (calculate_quote Sample.log1p Sample.train_fails
           0 36 12 false "46" "JAL" 14.5 false false
           (Sample.fs_with (Sample.artifacts 0.001 100000))) = Ok q /\
    dict_get q "approved_amount" = Some (Num 0).
Proof.
  split; [vm_compute; reflexivity|].
  split; [vm_compute; reflexivity|].
  eexists. split; vm_compute; reflexivity.
Qed.

(** C5, as the code behaves for a zero amount.  With [approved_amount = 0]
    no error is raised for the amount: the guarantee portion is guarded to
    0, and every quote returned has a guaranteed amount, a fee and a total
    financed of 0.  At a zero rate and for a term other than 0, when the
    artifacts load and the preprocessor accepts the record, such a quote is
    returned, and its payment is 0. *)
Theorem zero_amount_quoted (log1p : Q -> value)
  (train_main : FS -> result unit * FS) (a : Q) (t n : Z) (is_new : bool)
  (sc st : string) (rate : Q) (hre rec : bool) (fs : FS)
  (artifacts : Artifacts) (loan_df X : dict) :
  a == 0 ->
  fst (load_models train_main fs) = Ok artifacts ->
  create_loan_features log1p a t n is_new sc st = Ok loan_df ->
  transform_data (preprocessor artifacts)
    (dict_set
       (dict_set loan_df "HasRealEstate" (Num (if hre then 1 else 0)))
       "InRecession" (Num (if rec then 1 else 0))) = Ok X ->
  dict_get loan_df "NAFIN_Portion" = Some (Num 0) /\
  (forall q,
     fst (calculate_quote log1p train_main a t n is_new sc st rate hre rec fs)
     = Ok q ->
     exists guaranteed fee total,
       dict_get q "nafin_guaranteed" = Some (Num guaranteed) /\
       dict_get q "guarantee_fee" = Some (Num fee) /\
       dict_get q "total_financed" = Some (Num total) /\
       guaranteed == 0 /\ fee == 0 /\ total == 0) /\
  (rate == 0 -> (t <> 0)%Z ->
   exists q payment,
     fst (calculate_quote log1p train_main a t n is_new sc st rate hre rec fs)
     = Ok q /\
     dict_get q "monthly_payment" = Some (Num payment) /\
     payment == 0).
Proof.
  intros Ha Hload Hfeat HX.
  pose proof (nafin_guarantee_zero a Ha) as Hg.
  split; [|split].
  - unfold create_loan_features in Hfeat.
    assert (Hguard : Qltb 0 a = false) by (apply Qltb_ge; lra).
    rewrite Hguard in Hfeat. simpl in Hfeat.
    apply bind_Ok in Hfeat. destruct Hfeat as (per_employee & _ & Hfeat).
    inversion Hfeat. reflexivity.
  - intros q H. apply calculate_quote_inv in H.
    destruct H as (artifacts0 & loan_df0 & X0 & payment & _ & _ & _ & _ & ->).
    pose proof (fee_zero
                  (pd_model artifacts0 X0 * lgd_model artifacts0 X0
                   * calibration_factor artifacts0 * 1.20)
                  (calculate_nafin_guarantee a) Hg) as Hfee.
    eexists _, _, _. repeat (split; [reflexivity|]).
    split; [assumption|]. split; [assumption|]. lra.
  - intros Hrate Ht.
    pose proof (fee_zero
                  (pd_model artifacts X * lgd_model artifacts X
                   * calibration_factor artifacts * 1.20)
                  (calculate_nafin_guarantee a) Hg) as Hfee.
    pose proof (zero_rate_payment
                  (a + pymin
                         (pymax (pd_model artifacts X * lgd_model artifacts X
                                 * calibration_factor artifacts * 1.20)
                            (calculate_nafin_guarantee a * 0.005))
                         (calculate_nafin_guarantee a * 0.05))
                  rate t Hrate Ht) as Hpay.
    rewrite (calculate_quote_intro log1p train_main a t n is_new sc st rate
               hre rec fs artifacts loan_df X _ Hload Hfeat HX Hpay).
    eexists _, _. split; [reflexivity|]. split; [reflexivity|].
    transitivity (0 / inject_Z t); [|unfold Qdiv; ring].
    apply Qdiv_comp; [lra | reflexivity].
Qed.

Lemma zero_amount_quoted_witness :
  exists q payment,
    fst (calculate_quote Sample.log1p Sample.train_fails
           0 36 12 false "46" "JAL" 0 false false
           (Sample.fs_with (Sample.artifacts 0.02 100000))) = Ok q /\
    dict_get q "monthly_payment" = Some (Num payment) /\
    payment == 0.
Proof.
  assert (Hfeat : exists loan_df,
             create_loan_features Sample.log1p 0 36 12 false "46" "JAL"
             = Ok loan_df)
    by (eexists; vm_compute; reflexivity).
  destruct Hfeat as [loan_df Hfeat].
  assert (HX : exists X,
             transform_data (preprocessor (Sample.artifacts 0.02 100000))
               (dict_set
                  (dict_set loan_df "HasRealEstate" (Num (if false then 1 else 0)))
                  "InRecession" (Num (if false then 1 else 0))) = Ok X).
  { vm_compute in Hfeat. inversion Hfeat; subst loan_df.
    eexists. vm_compute. reflexivity. }
  destruct HX as [X HX].
  assert (Ha : 0 == 0) by reflexivity.
  assert (Ht : (36 <> 0)%Z) by lia.
  assert (Hload : fst (load_models Sample.train_fails
                         (Sample.fs_with (Sample.artifacts 0.02 100000)))
                  = Ok (Sample.artifacts 0.02 100000)) by reflexivity.
  exact (proj2 (proj2 (zero_amount_quoted Sample.log1p Sample.train_fails
                         0 36 12 false "46" "JAL" 0 false false
                         (Sample.fs_with (Sample.artifacts 0.02 100000))
                         (Sample.artifacts 0.02 100000) loan_df X
                         Ha Hload Hfeat HX)) Ha Ht).
Defined.

(** ** The scorers' outputs *)




(** ** Records that agree on the named columns *)

Lemma transform_num_agree (X X' : dict) (cols : list string) :
  (forall c, In c cols -> dict_get X c = dict_get X' c) ->
  forall maps, transform_num maps cols X = transform_num maps cols X'.
Proof.
  induction cols as [|c cols IH]; intros Hagree maps.
  - destruct maps; reflexivity.
  - destruct maps as [|f maps]; [reflexivity|]. simpl.
    unfold dict_getitem. rewrite (Hagree c) by (left; reflexivity).
    rewrite (IH (fun c' Hc' => Hagree c' (or_intror Hc')) maps).
    reflexivity.
Qed.

Lemma transform_cat_agree (enc : OrdinalEncoder) (X X' : dict)
  (cols : list string) :
  (forall c, In c cols -> dict_get X c = dict_get X' c) ->
  forall cats, transform_cat enc cats cols X = transform_cat enc cats cols X'.
Proof.
  induction cols as [|c cols IH]; intros Hagree cats.
  - destruct cats; reflexivity.
  - destruct cats as [|cs cats]; [reflexivity|]. simpl.
    unfold dict_getitem. rewrite (Hagree c) by (left; reflexivity).
    rewrite (IH (fun c' Hc' => Hagree c' (or_intror Hc')) cats).
    reflexivity.
Qed.

(** The transformed frame depends on a record with columns only through
    the columns that the transformer names. *)
Lemma transform_data_agree (p : ColumnTransformer) (X X' : dict) :
  X <> [] -> X' <> [] ->
  (forall c, In c (num_feats p ++ cat_feats p)%list ->
             dict_get X c = dict_get X' c) ->
  transform_data p X = transform_data p X'.
Proof.
  intros Hne Hne' Hagree. unfold transform_data, transform.
  destruct X as [|x X0]; [contradiction|].
  destruct X' as [|x' X0']; [contradiction|].
  assert (Hmiss : missing_columns p (x :: X0) = missing_columns p (x' :: X0')).
  { unfold missing_columns. apply filter_ext_in. intros c Hc.
    unfold has_column. now rewrite (Hagree c Hc). }
  rewrite Hmiss.
  rewrite (transform_num_agree (x :: X0) (x' :: X0') (num_feats p)).
  - rewrite (transform_cat_agree (cat_tf p) (x :: X0) (x' :: X0') (cat_feats p)).
    + reflexivity.
    + intros c Hc. apply Hagree. apply in_or_app. now right.
  - intros c Hc. apply Hagree. apply in_or_app. now left.
Qed.

(** * Further properties of the code *)

(** ** The guarantee and the fee *)

(** X2. Within each tier the guaranteed amount grows with the loan, but it
    drops at the tier boundary: every loan between 2,000,000 and
    16,000,000/7 is guaranteed for less than a loan of 2,000,000. *)
Theorem nafin_guarantee_drops_at_boundary :
  (forall a b, a <= b -> b <= 2000000 ->
     calculate_nafin_guarantee a <= calculate_nafin_guarantee b) /\
  (forall a b, 2000000 < a -> a <= b ->
     calculate_nafin_guarantee a <= calculate_nafin_guarantee b) /\
  (forall a, 2000000 < a -> 7 * a < 16000000 ->
     calculate_nafin_guarantee a < calculate_nafin_guarantee 2000000).
Proof.
  unfold calculate_nafin_guarantee. split; [|split].
  - intros a b Hab Hb.
    assert (Ha : a <= 2000000) by lra.
    apply Qle_bool_iff in Ha, Hb. rewrite Ha, Hb. lra.
  - intros a b Ha Hab.
    assert (Hb : 2000000 < b) by lra.
    apply Qle_bool_false in Ha, Hb. rewrite Ha, Hb. lra.
  - intros a Ha Hsmall.
    apply Qle_bool_false in Ha. rewrite Ha.
    assert (Hbound : Qle_bool 2000000 2000000 = true)
      by (apply Qle_bool_iff; lra).
    rewrite Hbound. lra.
Qed.

Lemma nafin_guarantee_drops_at_boundary_witness :
  calculate_nafin_guarantee 1000000 <= calculate_nafin_guarantee 2000000 /\
  calculate_nafin_guarantee 2500000 <= calculate_nafin_guarantee 3000000 /\
  calculate_nafin_guarantee 2100000 < calculate_nafin_guarantee 2000000.
Proof.
  destruct nafin_guarantee_drops_at_boundary as (Hlow & Hhigh & Hdrop).
  split; [|split].
  - apply Hlow; lra.
  - apply Hhigh; lra.
  - apply Hdrop; lra.
Defined.

Lemma pymin_pymax_mono (x y lo hi : Q) :
  x <= y -> pymin (pymax x lo) hi <= pymin (pymax y lo) hi.
Proof.
  intros Hxy. unfold pymin, pymax.
  destruct (Qltb x lo) eqn:Ex; destruct (Qltb y lo) eqn:Ey;
    try apply Qltb_lt in Ex; try apply Qltb_ge in Ex;
    try apply Qltb_lt in Ey; try apply Qltb_ge in Ey.
  - lra.
  - destruct (Qltb hi lo) eqn:E1; destruct (Qltb hi y) eqn:E2;
      try apply Qltb_lt in E1; try apply Qltb_ge in E1;
      try apply Qltb_lt in E2; try apply Qltb_ge in E2; lra.
  - lra.
  - destruct (Qltb hi x) eqn:E1; destruct (Qltb hi y) eqn:E2;
      try apply Qltb_lt in E1; try apply Qltb_ge in E1;
      try apply Qltb_lt in E2; try apply Qltb_ge in E2; lra.
Qed.

(** X3. The fee never decreases when the expected loss increases: of two quotes
    for the same request, scored by any two sets of artifacts, the one with
    the larger expected loss has the larger (or equal) fee. *)
Theorem fee_monotone_in_expected_loss (log1p : Q -> value)
  (train_main : FS -> result unit * FS) (a : Q) (t n : Z) (is_new : bool)
  (sc st : string) (rate : Q) (hre rec : bool) (fs1 fs2 : FS) (q1 q2 : dict) :
  fst (calculate_quote log1p train_main a t n is_new sc st rate hre rec fs1)
  = Ok q1 ->
  fst (calculate_quote log1p train_main a t n is_new sc st rate hre rec fs2)
  = Ok q2 ->
  exists el1 el2 fee1 fee2,
    dict_get q1 "expected_loss" = Some (Num el1) /\
    dict_get q2 "expected_loss" = Some (Num el2) /\
    dict_get q1 "guarantee_fee" = Some (Num fee1) /\
    dict_get q2 "guarantee_fee" = Some (Num fee2) /\
    (el1 <= el2 -> fee1 <= fee2).
Proof.
  intros H1 H2.
  apply calculate_quote_inv in H1.
  destruct H1 as (a1 & df1 & X1 & p1 & _ & _ & _ & _ & ->).
  apply calculate_quote_inv in H2.
  destruct H2 as (a2 & df2 & X2 & p2 & _ & _ & _ & _ & ->).
  eexists _, _, _, _. repeat (split; [reflexivity|]).
  intros Hel. apply pymin_pymax_mono. lra.
Qed.

Lemma fee_monotone_in_expected_loss_witness :
  exists q1 q2 fee1 fee2,
    fst (calculate_quote Sample.log1p Sample.train_fails
           500000 36 12 false "46" "JAL" 14.5 false false
           (Sample.fs_with (Sample.artifacts 0.02 100000))) = Ok q1 /\
    fst (calculate_quote Sample.log1p Sample.train_fails
           500000 36 12 false "46" "JAL" 14.5 false false
           (Sample.fs_with (Sample.artifacts 0.05 100000))) = Ok q2 /\
    dict_get q1 "guarantee_fee" = Some (Num fee1) /\
    dict_get q2 "guarantee_fee" = Some (Num fee2) /\
    fee1 <= fee2.
Proof.
  assert (H1 : exists q,
             fst (calculate_quote Sample.log1p Sample.train_fails
                    500000 36 12 false "46" "JAL" 14.5 false false
                    (Sample.fs_with (Sample.artifacts 0.02 100000))) = Ok q /\
             dict_get q "expected_loss" = Some (Num (0.02 * 100000 * 1)))
    by (eexists; split; [vm_compute; reflexivity | reflexivity]).
  assert (H2 : exists q,
             fst (calculate_quote Sample.log1p Sample.train_fails
                    500000 36 12 false "46" "JAL" 14.5 false false
                    (Sample.fs_with (Sample.artifacts 0.05 100000))) = Ok q /\
             dict_get q "expected_loss" = Some (Num (0.05 * 100000 * 1)))
    by (eexists; split; [vm_compute; reflexivity | reflexivity]).
  destruct H1 as (q1 & H1 & Hel1). destruct H2 as (q2 & H2 & Hel2).
  destruct (fee_monotone_in_expected_loss _ _ _ _ _ _ _ _ _ _ _ _ _ _ _ H1 H2)
    as (el1 & el2 & fee1 & fee2 & Hg1 & Hg2 & Hf1 & Hf2 & Hmono).
  rewrite Hel1 in Hg1. inversion Hg1; subst el1.
  rewrite Hel2 in Hg2. inversion Hg2; subst el2.
  exists q1, q2, fee1, fee2. repeat (split; [assumption|]).
  apply Hmono. lra.
Defined.

(** ** The inference-time record *)

(** X10. The record is built unless the employee count is -1: then, and only
    then, [create_loan_features] raises [ZeroDivisionError], and so does the
    quote, before any preprocessing, whatever the artifacts. *)
Theorem employees_minus_one_raises (log1p : Q -> value)
  (train_main : FS -> result unit * FS) (a : Q) (t n : Z) (is_new : bool)
  (sc st : string) :
  (create_loan_features log1p a t n is_new sc st = Raise ZeroDivisionError
   <-> n = (-1)%Z) /\
  (n = (-1)%Z ->
   forall rate hre rec fs artifacts,
     fst (load_models train_main fs) = Ok artifacts ->
     fst (calculate_quote log1p train_main a t n is_new sc st rate hre rec fs)
     = Raise ZeroDivisionError).
Proof.
  assert (Hraise : n = (-1)%Z ->
            create_loan_features log1p a t n is_new sc st
            = Raise ZeroDivisionError).
  { intros ->. unfold create_loan_features.
    destruct (Qltb 0 a) eqn:Hpos; [|reflexivity].
    apply Qltb_lt in Hpos. unfold pydiv at 1.
    rewrite (Qeq_bool_false_neq a) by lra. reflexivity. }
  split; [split|].
  - intros H. destruct (Z.eq_dec n (-1)) as [Hn|Hn]; [assumption|].
    destruct (create_loan_features_returns log1p a t n is_new sc st Hn)
      as [loan_df Hdf].
    rewrite Hdf in H. discriminate.
  - exact Hraise.
  - intros Hn rate hre rec fs artifacts Hload. unfold calculate_quote.
    destruct (load_models train_main fs) as [loaded fs']. simpl in *.
    subst loaded. simpl. now rewrite (Hraise Hn).
Qed.

Lemma employees_minus_one_raises_witness :
  create_loan_features Sample.log1p 500000 36 (-1) false "46" "JAL"
  = Raise ZeroDivisionError /\
  fst (calculate_quote Sample.log1p Sample.train_fails
         500000 36 (-1) false "46" "JAL" 14.5 false false
         (Sample.fs_with (Sample.artifacts 0.02 100000)))
  = Raise ZeroDivisionError.
Proof.
  destruct (employees_minus_one_raises Sample.log1p Sample.train_fails
              500000 36 (-1) false "46" "JAL") as [Hiff Hquote].
  split.
  - apply Hiff. reflexivity.
  - apply (Hquote eq_refl 14.5 false false
             (Sample.fs_with (Sample.artifacts 0.02 100000))
             (Sample.artifacts 0.02 100000)).
    reflexivity.
Defined.

Lemma clip_unit_id (x : Q) : 0 <= x -> x <= 1 -> prepare_data.clip 0 1 x = x.
Proof.
  intros H0 H1. unfold prepare_data.clip.
  assert (E0 : Qltb x 0 = false) by (apply Qltb_ge; assumption).
  rewrite E0. cbv zeta.
  assert (E1 : Qltb 1 x = false) by (apply Qltb_ge; assumption).
  now rewrite E1.
Qed.


Lemma guarantee_share (a : Q) :
  0 < a ->
  0 <= calculate_nafin_guarantee a / a /\ calculate_nafin_guarantee a / a <= 1.
Proof.
  intros Ha. unfold calculate_nafin_guarantee.
  destruct (Qle_bool a 2000000); split;
    first [apply Qle_shift_div_l | apply Qle_shift_div_r];
    try assumption; lra.
Qed.

(** X11. Training and inference agree on the derived fields: for a non-negative
    amount, the guarantee portion, the term in years, the debt not
    guaranteed and the new-business flag of the inference-time record are
    what [prepare_data] computes from the base fields of the same record.
    For a negative amount the debt field differs: inference keeps it
    negative, training clips it to 0. *)
Theorem inference_features_match_training (log1p : Q -> value) (a : Q)
  (t n : Z) (is_new : bool) (sc st : string) (loan_df : dict) :
  create_loan_features log1p a t n is_new sc st = Ok loan_df ->
  exists G N E portion years debt flag,
    dict_get loan_df "GrAppv" = Some (Num G) /\
    dict_get loan_df "NAFIN_Appv" = Some (Num N) /\
    dict_get loan_df "NewExist" = Some (Num E) /\
    dict_get loan_df "Term" = Some (Num (inject_Z t)) /\
    dict_get loan_df "NAFIN_Portion" = Some (Num portion) /\
    dict_get loan_df "Term_Years" = Some (Num years) /\
    dict_get loan_df "Debt_to_NAFIN" = Some (Num debt) /\
    dict_get loan_df "IsNewBusiness" = Some (Num flag) /\
    portion = prepare_data.NAFIN_Portion G N /\
    years = prepare_data.Term_Years t /\
    flag = prepare_data.IsNewBusiness E /\
    (0 <= a -> debt = prepare_data.Debt_to_NAFIN G N) /\
    (a < 0 -> debt < 0 /\ prepare_data.Debt_to_NAFIN G N = 0).
Proof.
  intros H. unfold create_loan_features in H.
  apply bind_Ok in H. destruct H as (portion & Hportion & H).
  apply bind_Ok in H. destruct H as (per_employee & _ & H).
  inversion H; subst loan_df; clear H.
  exists a, (calculate_nafin_guarantee a), (if is_new then 1 else 2).
  eexists _, _, _, _. repeat (split; [reflexivity|]).
  split; [|split; [|split; [|split]]].
  - unfold prepare_data.NAFIN_Portion.
    destruct (Qltb 0 a) eqn:Hpos.
    + apply Qltb_lt in Hpos. unfold pydiv in Hportion.
      rewrite (Qeq_bool_false_neq a) in Hportion by lra.
      inversion Hportion; subst portion.
      destruct (guarantee_share a Hpos) as [H0 H1].
      now rewrite clip_unit_id.
    + inversion Hportion; subst portion.
      rewrite clip_unit_id; [reflexivity | lra | lra].
  - reflexivity.
  - destruct is_new; reflexivity.
  - intros Ha. unfold prepare_data.Debt_to_NAFIN, prepare_data.clip_lower.
    assert (E : Qltb (a - calculate_nafin_guarantee a) 0 = false).
    { apply Qltb_ge. unfold calculate_nafin_guarantee.
      destruct (Qle_bool a 2000000); lra. }
    now rewrite E.
  - intros Ha.
    assert (Hneg : a - calculate_nafin_guarantee a < 0).
    { unfold calculate_nafin_guarantee.
      apply Qlt_le_weak in Ha as Hle.
      assert (Hsmall : a <= 2000000) by lra.
      apply Qle_bool_iff in Hsmall. rewrite Hsmall. lra. }
    split; [assumption|].
    unfold prepare_data.Debt_to_NAFIN, prepare_data.clip_lower.
    apply Qltb_lt in Hneg. now rewrite Hneg.
Qed.

Lemma inference_features_match_training_witness :
  exists loan_df debt,
    create_loan_features Sample.log1p 500000 36 12 true "46" "JAL" = Ok loan_df /\
    dict_get loan_df "Debt_to_NAFIN" = Some (Num debt) /\
    debt = prepare_data.Debt_to_NAFIN 500000 (calculate_nafin_guarantee 500000).
Proof.
  assert (Hdf : exists loan_df,
             create_loan_features Sample.log1p 500000 36 12 true "46" "JAL"
             = Ok loan_df /\
             dict_get loan_df "GrAppv" = Some (Num 500000) /\
             dict_get loan_df "NAFIN_Appv"
             = Some (Num (calculate_nafin_guarantee 500000)))
    by (eexists; split; [reflexivity | split; reflexivity]).
  destruct Hdf as (loan_df & Hdf & HG & HN).
  destruct (inference_features_match_training _ _ _ _ _ _ _ loan_df Hdf)
    as (G & N & E & portion & years & debt & flag
        & HG' & HN' & _ & _ & _ & _ & Hdebt & _ & _ & _ & _ & Hsame & _).
  rewrite HG in HG'. inversion HG'; subst G.
  rewrite HN in HN'. inversion HN'; subst N.
  exists loan_df, debt. repeat (split; [assumption|]).
  apply Hsame. lra.
Defined.

(** ** The training-time columns *)



Lemma prefix_two_idem (s : string) : prefix 2 (prefix 2 s) = prefix 2 s.
Proof.
  destruct s as [|c1 [|c2 [|c3 s]]]; reflexivity.
Qed.

Lemma prefix_two_length (s : string) : (String.length (prefix 2 s) <= 2)%nat.
Proof.
  destruct s as [|c1 [|c2 [|c3 s]]]; simpl; lia.
Qed.

(** X13. The cleaned sector code has at most two characters, is never ["0"] or
    ["na"] (they, and so the text of a missing cell, become ["00"]), and
    cleaning it again changes nothing.  It is the two-character prefix that
    the inference-time record uses, except when that prefix is ["0"] or
    ["na"]. *)
Theorem scian_cleaning (text : string) :
  (String.length (prepare_data.SCIAN text) <= 2)%nat /\
  prepare_data.SCIAN text <> "0" /\
  prepare_data.SCIAN text <> "na" /\
  prepare_data.SCIAN (prepare_data.SCIAN text) = prepare_data.SCIAN text /\
  (prefix 2 text <> "0" -> prefix 2 text <> "na" ->
   prepare_data.SCIAN text = prefix 2 text) /\
  (prefix 2 text = "0" \/ prefix 2 text = "na" ->
   prepare_data.SCIAN text = "00").
Proof.
  unfold prepare_data.SCIAN. cbv zeta.
  assert (Hnan : String.eqb (prefix 2 text) "nan" = false).
  { apply String.eqb_neq. intros H.
    pose proof (prefix_two_length text) as Hlen. rewrite H in Hlen.
    simpl in Hlen. lia. }
  rewrite Hnan, orb_false_r.
  destruct (String.eqb (prefix 2 text) "0") eqn:E0; simpl.
  - apply String.eqb_eq in E0.
    split; [simpl; lia|]. split; [discriminate|]. split; [discriminate|].
    split; [reflexivity|]. split; [|reflexivity].
    intros H. contradiction.
  - destruct (String.eqb (prefix 2 text) "na") eqn:E1; simpl.
    + apply String.eqb_eq in E1.
      split; [simpl; lia|]. split; [discriminate|]. split; [discriminate|].
      split; [reflexivity|]. split; [|reflexivity].
      intros _ H. contradiction.
    + assert (N0 : prefix 2 text <> "0") by (apply String.eqb_neq; exact E0).
      assert (N1 : prefix 2 text <> "na") by (apply String.eqb_neq; exact E1).
      split; [apply prefix_two_length|]. split; [assumption|].
      split; [assumption|]. split; [|split].
      * rewrite prefix_two_idem, Hnan, E0, E1. reflexivity.
      * reflexivity.
      * intros [H|H]; contradiction.
Qed.

Lemma scian_cleaning_witness :
  prepare_data.SCIAN "461110" = prefix 2 "461110" /\
  prepare_data.SCIAN "nan" = "00".
Proof.
  split.
  - apply (proj1 (proj2 (proj2 (proj2 (proj2 (scian_cleaning "461110"))))));
      discriminate.
  - apply (proj2 (proj2 (proj2 (proj2 (proj2 (scian_cleaning "nan")))))).
    right. reflexivity.
Defined.

Lemma isin_In (s : string) (l : list string) :
  prepare_data.isin s l = true <-> In s l.
Proof.
  unfold prepare_data.isin. symmetry. apply In_existsb.
Qed.

Lemma regions_disjoint (s : string) :
  (In s prepare_data.north -> ~ In s prepare_data.center /\ ~ In s prepare_data.south) /\
  (In s prepare_data.center -> ~ In s prepare_data.south).
Proof.
  split; intros H.
  - split; intros H'; apply isin_In in H';
      simpl in H; repeat (destruct H as [H|H]; [subst s; discriminate|]);
      contradiction.
  - intros H'. apply isin_In in H'.
    simpl in H; repeat (destruct H as [H|H]; [subst s; discriminate|]);
      contradiction.
Qed.

Lemma region_states_upper (s : string) :
  In s (prepare_data.north ++ prepare_data.center ++ prepare_data.south)%list ->
  upper s = s.
Proof.
  intros H. simpl in H.
  repeat (destruct H as [H|H]; [subst s; reflexivity|]). contradiction.
Qed.

(** X14. The three state lists are disjoint, so the label does not depend on the
    order of the conditions: a state is labelled by the list it is in, and
    ["Other"] exactly when it is in none.  The lists hold upper-case codes
    only, and the training data is not upper-cased: a state spelled in any
    other way is labelled ["Other"]. *)
Theorem region_by_membership (State : string) :
  (prepare_data.Region State = "North" <-> In State prepare_data.north) /\
  (prepare_data.Region State = "Center" <-> In State prepare_data.center) /\
  (prepare_data.Region State = "South" <-> In State prepare_data.south) /\
  (prepare_data.Region State = "Other" <->
   ~ In State prepare_data.north /\ ~ In State prepare_data.center /\
   ~ In State prepare_data.south) /\
  (upper State <> State -> prepare_data.Region State = "Other").
Proof.
  destruct (regions_disjoint State) as [Hn Hc].
  pose proof (isin_In State prepare_data.north) as In_n.
  pose proof (isin_In State prepare_data.center) as In_c.
  pose proof (isin_In State prepare_data.south) as In_s.
  pose proof (region_states_upper State) as Hup.
  unfold prepare_data.Region.
  destruct (prepare_data.isin State prepare_data.north) eqn:En;
    [|destruct (prepare_data.isin State prepare_data.center) eqn:Ec;
      [|destruct (prepare_data.isin State prepare_data.south) eqn:Es]].
  - assert (Hin : In State prepare_data.north) by now apply In_n.
    destruct (Hn Hin) as [Hnc Hns].
    repeat split; try discriminate; try tauto.
    intros Hneq. exfalso. apply Hneq, Hup. apply in_or_app. now left.
  - assert (Hin : In State prepare_data.center) by now apply In_c.
    assert (Hnn : ~ In State prepare_data.north)
      by (intros H; apply In_n in H; discriminate).
    specialize (Hc Hin).
    repeat split; try discriminate; try tauto.
    intros Hneq. exfalso. apply Hneq, Hup.
    apply in_or_app. right. apply in_or_app. now left.
  - assert (Hin : In State prepare_data.south) by now apply In_s.
    assert (Hnn : ~ In State prepare_data.north)
      by (intros H; apply In_n in H; discriminate).
    assert (Hnc : ~ In State prepare_data.center)
      by (intros H; apply In_c in H; discriminate).
    repeat split; try discriminate; try tauto.
    intros Hneq. exfalso. apply Hneq, Hup.
    apply in_or_app. right. apply in_or_app. now right.
  - assert (Hnn : ~ In State prepare_data.north)
      by (intros H; apply In_n in H; discriminate).
    assert (Hnc : ~ In State prepare_data.center)
      by (intros H; apply In_c in H; discriminate).
    assert (Hns : ~ In State prepare_data.south)
      by (intros H; apply In_s in H; discriminate).
    repeat split; try discriminate; try tauto.
Qed.

Lemma region_by_membership_witness :
  prepare_data.Region "cdmx" = "Other" /\ prepare_data.Region "CDMX" = "Center".
Proof.
  split.
  - apply (proj2 (proj2 (proj2 (proj2 (region_by_membership "cdmx"))))).
    discriminate.
  - apply (proj1 (proj2 (region_by_membership "CDMX"))).
    simpl. tauto.
Defined.

(** ** Loading the artifacts *)

(** X15. While a model file exists nothing is trained and nothing is written:
    [load_models], and so a quote, leaves the working directory as it is
    and does not depend on the training run; the main file is preferred to
    the legacy one.  Without model files the training run decides: its
    exception is passed on, and after it only the main file is read, so a
    run that leaves no main file ends in [FileNotFoundError] even if it
    wrote the legacy file. *)
Theorem load_models_trains_only_without_files
  (log1p : Q -> value) (train_main : FS -> result unit * FS) (fs : FS) :
  (forall main, fs "sba_mexico_model.pkl" = Some main ->
     load_models train_main fs = (Ok main, fs)) /\
  (forall legacy, fs "sba_mexico_model.pkl" = None ->
     fs "sba_model.pkl" = Some legacy ->
     load_models train_main fs = (Ok legacy, fs)) /\
  (forall artifacts other_training a t n is_new sc st rate hre rec,
     first_existing fs model_files = Some artifacts ->
     calculate_quote log1p train_main a t n is_new sc st rate hre rec fs
     = calculate_quote log1p other_training a t n is_new sc st rate hre rec fs
     /\
     snd (calculate_quote log1p train_main a t n is_new sc st rate hre rec fs)
     = fs) /\
  (fs "sba_mexico_model.pkl" = None -> fs "sba_model.pkl" = None ->
   (forall e fs', train_main fs = (Raise e, fs') ->
      load_models train_main fs = (Raise e, fs')) /\
   (forall u fs', train_main fs = (Ok u, fs') ->
      fs' "sba_mexico_model.pkl" = None ->
      load_models train_main fs
      = (Raise (FileNotFoundError "sba_mexico_model.pkl"), fs'))).
Proof.
  split; [|split; [|split]].
  - intros main H. apply load_models_existing. simpl. now rewrite H.
  - intros legacy Hmain H. apply load_models_existing. simpl.
    now rewrite Hmain, H.
  - intros artifacts other a t n is_new sc st rate hre rec H.
    unfold calculate_quote.
    rewrite (load_models_existing train_main fs artifacts H).
    rewrite (load_models_existing other fs artifacts H).
    split; reflexivity.
  - intros Hmain Hlegacy. split.
    + intros e fs' Htrain. unfold load_models. simpl.
      now rewrite Hmain, Hlegacy, Htrain.
    + intros u fs' Htrain Hnone. unfold load_models. simpl.
      now rewrite Hmain, Hlegacy, Htrain, Hnone.
Qed.

Lemma load_models_trains_only_without_files_witness :
  load_models Sample.train_fails (Sample.fs_legacy (Sample.artifacts 0.02 100000))
  = (Ok (Sample.artifacts 0.02 100000),
     Sample.fs_legacy (Sample.artifacts 0.02 100000)) /\
  load_models Sample.train_fails Sample.no_files
  = (Raise (FileNotFoundError "train.py"), Sample.no_files).
Proof.
  split.
  - apply (proj1 (proj2 (load_models_trains_only_without_files
                           Sample.log1p Sample.train_fails
                           (Sample.fs_legacy (Sample.artifacts 0.02 100000)))));
      reflexivity.
  - apply (proj1 (proj2 (proj2 (proj2
             (load_models_trains_only_without_files
                Sample.log1p Sample.train_fails Sample.no_files)))
             eq_refl eq_refl)).
    reflexivity.
Defined.

(** ** The optional flags *)

Lemma dict_get_set_other (d : dict) (k k' : string) (v : value) :
  k <> k' -> dict_get (dict_set d k v) k' = dict_get d k'.
Proof.
  intros Hneq. induction d as [|[k0 v0] d IH]; simpl.
  - apply String.eqb_neq in Hneq. now rewrite Hneq.
  - destruct (String.eqb k0 k) eqn:E; simpl.
    + apply String.eqb_eq in E. subst k0.
      apply String.eqb_neq in Hneq. now rewrite Hneq.
    + now rewrite IH.
Qed.

(** X16. The real-estate and recession flags reach the quote only through the
    columns [HasRealEstate] and [InRecession]: with a preprocessor that
    names neither, every choice of the flags gives the same result. *)
Theorem flags_only_through_their_columns (log1p : Q -> value)
  (train_main : FS -> result unit * FS) (a : Q) (t n : Z) (is_new : bool)
  (sc st : string) (rate : Q) (hre rec hre' rec' : bool) (fs : FS)
  (artifacts : Artifacts) :
  fst (load_models train_main fs) = Ok artifacts ->
  ~ In "HasRealEstate"
      (num_feats (preprocessor artifacts) ++ cat_feats (preprocessor artifacts))%list ->
  ~ In "InRecession"
      (num_feats (preprocessor artifacts) ++ cat_feats (preprocessor artifacts))%list ->
  fst (calculate_quote log1p train_main a t n is_new sc st rate hre rec fs)
  = fst (calculate_quote log1p train_main a t n is_new sc st rate hre' rec' fs).
Proof.
  intros Hload Hre Hrec. unfold calculate_quote.
  destruct (load_models train_main fs) as [loaded fs']. simpl in *.
  subst loaded. simpl.
  destruct (create_loan_features log1p a t n is_new sc st) as [loan_df|e];
    [|reflexivity].
  simpl.
  rewrite (transform_data_agree (preprocessor artifacts)
             (dict_set
                (dict_set loan_df "HasRealEstate" (Num (if hre then 1 else 0)))
                "InRecession" (Num (if rec then 1 else 0)))
             (dict_set
                (dict_set loan_df "HasRealEstate" (Num (if hre' then 1 else 0)))
                "InRecession" (Num (if rec' then 1 else 0)))).
  - reflexivity.
  - apply dict_set_nonempty.
  - apply dict_set_nonempty.
  - intros c Hc.
    assert (H1 : "HasRealEstate" <> c) by (intros Heq; subst c; contradiction).
    assert (H2 : "InRecession" <> c) by (intros Heq; subst c; contradiction).
    now rewrite !dict_get_set_other.
Qed.

Lemma flags_only_through_their_columns_witness :
  fst (calculate_quote Sample.log1p Sample.train_fails
         500000 36 12 false "46" "JAL" 14.5 false false
         (Sample.fs_with (Sample.amount_and_sector 0.02 100000)))
  = fst (calculate_quote Sample.log1p Sample.train_fails
           500000 36 12 false "46" "JAL" 14.5 true true
           (Sample.fs_with (Sample.amount_and_sector 0.02 100000))).
Proof.
  apply (flags_only_through_their_columns _ _ _ _ _ _ _ _ _ _ _ _ _ _
           (Sample.amount_and_sector 0.02 100000)).
  - reflexivity.
  - rewrite In_existsb. vm_compute. discriminate.
  - rewrite In_existsb. vm_compute. discriminate.
Defined.

(** ** The transformed frame *)

Lemma transform_num_length (X : dict) (cols : list string) :
  forall maps ys, transform_num maps cols X = Ok ys -> length ys = length cols.
Proof.
  induction cols as [|c cols IH]; intros maps ys H.
  - destruct maps; simpl in H; [now inversion H | discriminate].
  - destruct maps as [|f maps]; simpl in H; [discriminate|].
    apply bind_Ok in H. destruct H as (v & _ & H).
    apply bind_Ok in H. destruct H as (y & _ & H).
    apply bind_Ok in H. destruct H as (rest & Hrest & H).
    inversion H. simpl. f_equal. exact (IH _ _ Hrest).
Qed.

Lemma transform_cat_length (enc : OrdinalEncoder) (X : dict)
  (cols : list string) :
  forall cats ys,
    transform_cat enc cats cols X = Ok ys -> length ys = length cols.
Proof.
  induction cols as [|c cols IH]; intros cats ys H.
  - destruct cats; simpl in H; [now inversion H | discriminate].
  - destruct cats as [|cs cats]; simpl in H; [discriminate|].
    apply bind_Ok in H. destruct H as (v & _ & H).
    apply bind_Ok in H. destruct H as (y & _ & H).
    apply bind_Ok in H. destruct H as (rest & Hrest & H).
    inversion H. simpl. f_equal. exact (IH _ _ Hrest).
Qed.

Lemma keys_combine (cols : list string) :
  forall vals : list value,
    length vals = length cols -> keys (combine cols vals) = cols.
Proof.
  induction cols as [|c cols IH]; intros vals H.
  - reflexivity.
  - destruct vals as [|v vals]; [discriminate|]. simpl.
    f_equal. apply IH. simpl in H. lia.
Qed.

(** X17. When [transform_data] returns, the columns of the frame are the output
    names of the transformer, one per declared column and in the declared
    order: the numeric block under the prefix [num__], then the categorical
    block under [cat__]. *)
Theorem transform_data_columns (p : ColumnTransformer) (X Y : dict) :
  transform_data p X = Ok Y ->
  keys Y = (map (fun c => "num__" ++ c)%string (num_feats p)
            ++ map (fun c => "cat__" ++ c)%string (cat_feats p))%list /\
  length Y = (length (num_feats p) + length (cat_feats p))%nat.
Proof.
  intros H. unfold transform_data in H.
  apply bind_Ok in H. destruct H as (X_mat & Hmat & H).
  inversion H; subst Y; clear H.
  unfold transform in Hmat.
  destruct X as [|x X']; [discriminate|].
  destruct (missing_columns p (x :: X')); [|discriminate].
  apply bind_Ok in Hmat. destruct Hmat as (xs & Hxs & Hmat).
  apply bind_Ok in Hmat. destruct Hmat as (ys & Hys & Hmat).
  inversion Hmat; subst X_mat; clear Hmat.
  apply transform_num_length in Hxs. apply transform_cat_length in Hys.
  assert (Hlen : length (xs ++ ys)%list = length (get_feature_names_out p)).
  { unfold get_feature_names_out.
    rewrite !length_app, !length_map. lia. }
  split.
  - now apply keys_combine.
  - rewrite length_combine, Hlen, Nat.min_id.
    unfold get_feature_names_out. now rewrite length_app, !length_map.
Qed.

Lemma transform_data_columns_witness :
  exists Y,
    transform_data Sample.preprocessor
      [("GrAppv", Num 1); ("NAFIN_Appv", Num 1); ("Debt_to_NAFIN", Num 1);
       ("Log_GrAppv", Num 1); ("Term", Num 1); ("Term_Years", Num 1);
       ("NoEmp", Num 1); ("NAFIN_Portion", Num 1); ("HasRealEstate", Num 0);
       ("InRecession", Num 0); ("SCIAN", Str "99"); ("State", Str "JAL");
       ("IsNewBusiness", Num 1); ("IsUrban", Num 1)] = Ok Y /\
    length Y = 14%nat.
Proof.
  assert (H : exists Y,
            transform_data Sample.preprocessor
              [("GrAppv", Num 1); ("NAFIN_Appv", Num 1); ("Debt_to_NAFIN", Num 1);
               ("Log_GrAppv", Num 1); ("Term", Num 1); ("Term_Years", Num 1);
               ("NoEmp", Num 1); ("NAFIN_Portion", Num 1);
               ("HasRealEstate", Num 0); ("InRecession", Num 0);
               ("SCIAN", Str "99"); ("State", Str "JAL");
               ("IsNewBusiness", Num 1); ("IsUrban", Num 1)] = Ok Y)
    by (eexists; reflexivity).
  destruct H as [Y H]. exists Y. split; [assumption|].
  exact (proj2 (transform_data_columns Sample.preprocessor _ Y H)).
Defined.





(** ** The printed report *)

(** X19. The risk label never goes down when the PD goes up. *)
Theorem risk_level_monotone (pd1 pd2 : Q) :
  pd1 <= pd2 ->
  (risk_rank (risk_level_of (Num pd1)) <= risk_rank (risk_level_of (Num pd2)))%nat.
Proof.
  intros Hle. unfold risk_level_of.
  destruct (Qltb pd1 0.05) eqn:A1; destruct (Qltb pd1 0.10) eqn:A2;
    destruct (Qltb pd1 0.15) eqn:A3;
    destruct (Qltb pd2 0.05) eqn:B1; destruct (Qltb pd2 0.10) eqn:B2;
    destruct (Qltb pd2 0.15) eqn:B3; simpl; try lia; exfalso;
    repeat match goal with
           | H : Qltb _ _ = true |- _ => apply Qltb_lt in H
           | H : Qltb _ _ = false |- _ => apply Qltb_ge in H
           end; lra.
Qed.

Lemma risk_level_monotone_witness :
  (risk_rank (risk_level_of (Num 0.03)) <= risk_rank (risk_level_of (Num 0.12)))%nat.
Proof.
  apply risk_level_monotone. lra.
Defined.

(** X20. For a positive approved amount the report never fails on a
    returned quote: [quick_quote] returns the quote of [calculate_quote]
    with both flags off, and the report shows the fee as a percentage of
    the guaranteed amount, the risk label of the quote's PD and, for a
    sector code and a state written in ASCII, the sector and state names
    looked up under the keys that the features use (the first two
    characters of the sector code, the upper-cased state). *)
Theorem quick_quote_returns_the_quote (log1p : Q -> value)
  (train_main : FS -> result unit * FS)
  (SECTORES_SCIAN ESTADOS_MEXICO : list (string * string))
  (str_of_number : Q -> string) (a : Q) (t n : Z) (is_new : bool)
  (sc st : string) (rate : Q) (fs : FS) (q : dict) :
  0 < a -> is_ascii sc = true -> is_ascii st = true ->
  fst (calculate_quote log1p train_main a t n is_new sc st rate false false fs)
  = Ok q ->
  exists report pd fee guaranteed,
    fst (quick_quote log1p train_main SECTORES_SCIAN ESTADOS_MEXICO
           str_of_number a t n is_new sc st rate fs)
    = Printed (report, q) /\
    dict_get q "pd" = Some (Num pd) /\
    dict_get q "guarantee_fee" = Some (Num fee) /\
    dict_get q "nafin_guaranteed" = Some (Num guaranteed) /\
    risk_level report = risk_level_of (Num pd) /\
    fee_pct report = Num (fee / guaranteed * 100) /\
    sector_name report
    = table_get SECTORES_SCIAN (prefix 2 sc) "No especificado" /\
    state_name report = table_get ESTADOS_MEXICO (upper st) st.
Proof.
  intros Ha _ _ H. unfold quick_quote.
  destruct (calculate_quote log1p train_main a t n is_new sc st rate
              false false fs) as [quoted fs'] eqn:E.
  simpl in H. subst quoted.
  assert (Hq : fst (calculate_quote log1p train_main a t n is_new sc st rate
                      false false fs) = Ok q) by now rewrite E.
  apply calculate_quote_inv in Hq.
  destruct Hq as (artifacts & loan_df & X & payment & _ & _ & _ & _ & ->).
  pose proof (nafin_guarantee_pos a Ha) as Hg.
  unfold print_quote, shown, formatted, fee_percentage. simpl.
  rewrite (Qeq_bool_false_neq (calculate_nafin_guarantee a)) by lra.
  simpl. eexists _, _, _, _. split; [reflexivity|]. simpl.
  repeat split.
Qed.

Lemma quick_quote_returns_the_quote_witness :
  exists q report,
    fst (quick_quote Sample.log1p Sample.train_fails Sample.sectores
           Sample.estados Sample.str_of_number
           500000 36 12 false "46" "jal" 14.5
           (Sample.fs_with (Sample.artifacts 0.02 100000)))
    = Printed (report, q) /\
    sector_name report = "Comercio al por menor" /\
    state_name report = "Jalisco".
Proof.
  assert (Hq : exists q,
             fst (calculate_quote Sample.log1p Sample.train_fails
                    500000 36 12 false "46" "jal" 14.5 false false
                    (Sample.fs_with (Sample.artifacts 0.02 100000))) = Ok q)
    by (eexists; vm_compute; reflexivity).
  destruct Hq as [q Hq].
  assert (Hpos : 0 < 500000) by lra.
  destruct (quick_quote_returns_the_quote Sample.log1p Sample.train_fails
              Sample.sectores Sample.estados Sample.str_of_number
              500000 36 12 false "46" "jal" 14.5
              (Sample.fs_with (Sample.artifacts 0.02 100000)) q Hpos
              eq_refl eq_refl Hq)
    as (report & pd & fee & guaranteed & Hquick & _ & _ & _ & _ & _
        & Hsector & Hstate).
  exists q, report. split; [assumption|].
  rewrite Hsector, Hstate. split; reflexivity.
Defined.

(** X21. For a zero approved amount the quote is computed but [quick_quote]
    loses it: the report divides the fee by the guaranteed amount, which is
    zero, and raises [ZeroDivisionError].  (The expected loss is taken to be
    other than zero: the fee is then the floor or the cap, a Python float;
    a fee that is a NumPy zero would give [nan] instead.) *)
Theorem quick_quote_zero_amount_raises (log1p : Q -> value)
  (train_main : FS -> result unit * FS)
  (SECTORES_SCIAN ESTADOS_MEXICO : list (string * string))
  (str_of_number : Q -> string) (a : Q) (t n : Z) (is_new : bool)
  (sc st : string) (rate : Q) (fs : FS) (q : dict) :
  a == 0 ->
  fst (calculate_quote log1p train_main a t n is_new sc st rate false false fs)
  = Ok q ->
  (forall el, dict_get q "expected_loss" = Some (Num el) -> ~ el == 0) ->
  fst (quick_quote log1p train_main SECTORES_SCIAN ESTADOS_MEXICO
         str_of_number a t n is_new sc st rate fs)
  = Failed (Exn ZeroDivisionError).
Proof.
  intros Ha H _. unfold quick_quote.
  destruct (calculate_quote log1p train_main a t n is_new sc st rate
              false false fs) as [quoted fs'] eqn:E.
  simpl in H. subst quoted.
  assert (Hq : fst (calculate_quote log1p train_main a t n is_new sc st rate
                      false false fs) = Ok q) by now rewrite E.
  apply calculate_quote_inv in Hq.
  destruct Hq as (artifacts & loan_df & X & payment & _ & _ & _ & _ & ->).
  pose proof (nafin_guarantee_zero a Ha) as Hg.
  unfold print_quote, shown, formatted, fee_percentage. simpl.
  now rewrite (Qeq_eq_bool _ _ Hg).
Qed.

Lemma quick_quote_zero_amount_raises_witness :
  fst (quick_quote Sample.log1p Sample.train_fails Sample.sectores
         Sample.estados Sample.str_of_number
         0 36 12 false "46" "JAL" 14.5
         (Sample.fs_with (Sample.artifacts 0.02 100000)))
  = Failed (Exn ZeroDivisionError).
Proof.
  assert (Hq : exists q,
             fst (calculate_quote Sample.log1p Sample.train_fails
                    0 36 12 false "46" "JAL" 14.5 false false
                    (Sample.fs_with (Sample.artifacts 0.02 100000))) = Ok q /\
             dict_get q "expected_loss" = Some (Num (0.02 * 100000 * 1)))
    by (eexists; split; [vm_compute; reflexivity | reflexivity]).
  destruct Hq as (q & Hq & Hel).
  assert (Ha : 0 == 0) by reflexivity.
  apply (quick_quote_zero_amount_raises Sample.log1p Sample.train_fails
           Sample.sectores Sample.estados Sample.str_of_number
           0 36 12 false "46" "JAL" 14.5
           (Sample.fs_with (Sample.artifacts 0.02 100000)) q Ha Hq).
  intros el Hget. rewrite Hel in Hget. inversion Hget; subst el. lra.
Defined.

(** ** The preprocessor as declared *)

Lemma quote_rejected_with_created_preprocessor_witness :
  fst (calculate_quote Sample.log1p Sample.train_fails
         500000 36 12 false "46" "JAL" 14.5 false false
         (Sample.fs_with
            (mkArtifacts Sample.shipped_preprocessor
               (fun _ => 0.02) (fun _ => 100000) 1)))
  = Raise (ValueError "columns are missing").
Proof.
  apply (quote_rejected_with_created_preprocessor _ _ _ _ _ _ _ _ _ _ _ _
           (mkArtifacts Sample.shipped_preprocessor
              (fun _ => 0.02) (fun _ => 100000) 1)).
  - reflexivity.
  - repeat split.
  - lia.
Defined.
